(** * PandemicPulse: the data-refresh cache and derived metrics of [app.py]

    A shallow embedding of the refresh cache ([fetch_covid_data]), of the
    trend and ratio helpers ([calculate_trend], [safe_division]), of the
    choropleth colour scale ([get_color_for_value]) and of the part of the
    dashboard callback that consumes a cache entry ([update_dashboard],
    [create_card], [create_map_figure]).

    Numbers.  Python numbers (JSON integers and floats) are modelled as
    rationals [Q]: arithmetic is exact, so binary64 rounding and overflow
    are outside the model.  A cell of a [numpy] float array is a rational
    or [NaN] (what [numpy] stores for [None]). *)

From Stdlib Require Import ZArith QArith Qround Qabs Lqa Lia Ascii String.
From stdpp Require Import base option list strings gmap.

Local Open Scope Z_scope.

(** ** Exceptions and the error monad *)

Inductive exn : Type :=
  | TypeError
  | ValueError
  | KeyError
  | AttributeError
  | ZeroDivisionError
  | JSONDecodeError
  | IndexError
  | ConnectionError
  | Timeout.

Inductive res (A : Type) : Type :=
  | Ok (a : A)
  | Raise (e : exn).
Arguments Ok {A} a.
Arguments Raise {A} e.

Global Instance res_ret : MRet res := fun A a => Ok a.
Global Instance res_bind : MBind res := fun A B f m =>
  match m with
  | Ok a => f a
  | Raise e => Raise e
  end.

(** The handlers of the source name [KeyError], [TypeError] and
    [ZeroDivisionError], none of which has a subclass in this list, and
    [Exception], which covers the whole list: equality of classes decides
    what a handler catches. *)
Definition exn_eqb (a b : exn) : bool :=
  match a, b with
  | TypeError, TypeError | ValueError, ValueError | KeyError, KeyError
  | AttributeError, AttributeError | ZeroDivisionError, ZeroDivisionError
  | JSONDecodeError, JSONDecodeError | IndexError, IndexError
  | ConnectionError, ConnectionError | Timeout, Timeout => true
  | _, _ => false
  end.

(** [try: body  except (e1, ..., en): handler]. *)
Definition try_except {A} (body : res A) (caught : list exn) (handler : res A) : res A :=
  match body with
  | Ok a => Ok a
  | Raise e => if existsb (exn_eqb e) caught then handler else Raise e
  end.

(** ** Python values as [response.json()] produces them *)

#[local] Set Warnings "-register-all".
Inductive pyval : Type :=
  | PNone
  | PBool (b : bool)
  | PNum (q : Q)
  | PStr (s : string)
  | PList (l : list pyval)
  | PDict (d : gmap string pyval).

(** A value that takes part in arithmetic: a number, or a [bool] (an [int]
    subclass). *)
Definition as_number (v : pyval) : option Q :=
  match v with
  | PNum q => Some q
  | PBool true => Some 1%Q
  | PBool false => Some 0%Q
  | _ => None
  end.

Definition Qzero (q : Q) : bool := Qeq_bool q 0.

(** [v == 0] *)
Definition py_eq_zero (v : pyval) : bool :=
  match as_number v with
  | Some q => Qzero q
  | None => false
  end.

(** [v is None] *)
Definition py_is_none (v : pyval) : bool :=
  match v with
  | PNone => true
  | _ => false
  end.

(** [a - b] *)
Definition py_sub (a b : pyval) : res Q :=
  match as_number a, as_number b with
  | Some x, Some y => Ok (x - y)%Q
  | _, _ => Raise TypeError
  end.

(** [a / b] *)
Definition py_truediv (a b : pyval) : res Q :=
  match as_number a, as_number b with
  | Some x, Some y => if Qzero y then Raise ZeroDivisionError else Ok (x / y)%Q
  | _, _ => Raise TypeError
  end.

(** [d.get(key, default)]; a value without a [get] method raises. *)
Definition py_get (v : pyval) (key : string) (dflt : pyval) : res pyval :=
  match v with
  | PDict d => Ok (default dflt (d !! key))
  | _ => Raise AttributeError
  end.

(** ** Trend and ratio helpers *)

Definition calculate_trend (current previous : pyval) : res pyval :=
  try_except
    (if py_eq_zero previous || py_is_none previous then Ok (PNum 0)
     else
       d ← py_sub current previous;
       r ← py_truediv (PNum d) previous;
       Ok (PNum (r * 100)))
    [TypeError; ZeroDivisionError]
    (Ok (PNum 0)).


(** The contract of section 4.2 of the specification, on numbers, with
    [None] for an absent (null) operand. *)
Definition trend (current : Q) (previous : option Q) : Q :=
  match previous with
  | None => 0
  | Some p => if Qzero p then 0 else (current - p) / p * 100
  end.



(** ** State threaded through exceptions

    [stm S A] is a computation over a mutable state [S] that returns a
    value or raises; what was written to the state before an exception is
    still there when a handler runs. *)

Definition stm (S A : Type) : Type := S -> res A * S.

Global Instance stm_ret {S} : MRet (stm S) := fun A a s => (Ok a, s).
Global Instance stm_bind {S} : MBind (stm S) := fun A B f m s =>
  match m s with
  | (Ok a, s') => f a s'
  | (Raise e, s') => (Raise e, s')
  end.

Definition lift {S A} (r : res A) : stm S A := fun s => (r, s).
Definition modify {S} (f : S -> S) : stm S unit := fun s => (Ok tt, f s).

Definition try_except_st {S A} (body : stm S A) (caught : list exn)
    (handler : stm S A) : stm S A := fun s =>
  match body s with
  | (Ok a, s') => (Ok a, s')
  | (Raise e, s') => if existsb (exn_eqb e) caught then handler s' else (Raise e, s')
  end.

(** ** [numpy] float arrays *)

Inductive float64 : Type :=
  | Fin (q : Q)
  | NaN.

Definition np_zeros (n : nat) : list float64 := replicate n (Fin 0).
Definition np_ones (n : nat) : list float64 := replicate n (Fin 1).

(** [x != 0], elementwise; [nan != 0] holds. *)
Definition f_ne0 (x : float64) : bool :=
  match x with
  | Fin q => negb (Qzero q)
  | NaN => true
  end.

(** [x / y]; the mask of [np.divide] keeps a zero divisor away, for which
    [numpy] would store a non-finite value. *)
Definition f_div (x y : float64) : float64 :=
  match x, y with
  | Fin a, Fin b => if Qzero b then NaN else Fin (a / b)
  | _, _ => NaN
  end.

Definition f_mul (x y : float64) : float64 :=
  match x, y with
  | Fin a, Fin b => Fin (a * b)
  | _, _ => NaN
  end.

Definition f_add (x y : float64) : float64 :=
  match x, y with
  | Fin a, Fin b => Fin (a + b)
  | _, _ => NaN
  end.

(** [np.divide(a, b, where=b != 0)] without [out=]: the result is a fresh
    array that is not initialised, and the cells the mask excludes keep
    whatever the buffer held; [buf i] is that prior content of cell [i]. *)
Fixpoint np_divide_where (i : nat) (a b : list float64) (buf : nat -> float64)
    : list float64 :=
  match a, b with
  | x :: a', y :: b' =>
      (if f_ne0 y then f_div x y else buf i) :: np_divide_where (S i) a' b' buf
  | _, _ => []
  end.

(** [arr * k] *)
Definition np_scale (arr : list float64) (k : Q) : list float64 :=
  (fun x => f_mul x (Fin k)) <$> arr.

(** [np.sum(arr)] *)
Definition np_sum (arr : list float64) : float64 := foldl f_add (Fin 0) arr.

(** ** Upstream API *)

Definition url_countries : string := "https://disease.sh/v3/covid-19/countries".
Definition url_countries_yesterday : string :=
  "https://disease.sh/v3/covid-19/countries?yesterday=true".
Definition url_all : string := "https://disease.sh/v3/covid-19/all".
Definition url_all_yesterday : string :=
  "https://disease.sh/v3/covid-19/all?yesterday=true".

(** What [session.get] hands back: the status line and the outcome of
    [response.json()] on the body. *)
Record response : Type := {
  status_code : Z;
  json : res pyval
}.

(** [session.get(url, timeout=10)]: a response, or the exception raised
    (connection error, timeout). *)
Definition network : Type := string -> res response.

Definition session_get (net : network) (url : string) : stm (list string) response :=
  fun log => (net url, log ++ [url]).

(** ** The cache entry and the cache slot *)

Record entry : Type := {
  countries : list pyval;
  cases : list float64;
  active : list float64;
  recovered : list float64;
  deaths : list float64;
  iso3 : list pyval;
  cases_per_million : list float64;
  deaths_per_million : list float64;
  tests_per_million : list float64;
  last_updated : Q;  (* the instant, in seconds, that the stored text renders *)
  new_cases : pyval;
  new_deaths : pyval;
  new_recovered : pyval;
  cases_trend : pyval;
  deaths_trend : pyval;
  recovered_trend : pyval
}.

Record cache : Type := {
  data : option entry;
  last_fetch : option Q
}.

(** The process: the cache slot and the requests sent so far. *)
Record world : Type := {
  data_cache : cache;
  requests : list string
}.

(** Refresh rounds begun: every round opens with the per-country request. *)
Definition fetches (log : list string) : nat :=
  length (filter (fun u => u = url_countries) log).

(** ** The refresh path of [fetch_covid_data] *)

(** Local variables of the parsing loop. *)
Record locals : Type := {
  l_countries : list pyval;
  l_iso3_data : list pyval;
  l_cases : list float64;
  l_active : list float64;
  l_recovered : list float64;
  l_deaths : list float64;
  l_tests : list float64;
  l_population : list float64
}.

Definition append_country (v : pyval) (l : locals) : locals :=
  {| l_countries := l_countries l ++ [v]; l_iso3_data := l_iso3_data l;
     l_cases := l_cases l; l_active := l_active l; l_recovered := l_recovered l;
     l_deaths := l_deaths l; l_tests := l_tests l; l_population := l_population l |}.

Definition append_iso3 (v : pyval) (l : locals) : locals :=
  {| l_countries := l_countries l; l_iso3_data := l_iso3_data l ++ [v];
     l_cases := l_cases l; l_active := l_active l; l_recovered := l_recovered l;
     l_deaths := l_deaths l; l_tests := l_tests l; l_population := l_population l |}.

Definition set_cases (i : nat) (x : float64) (l : locals) : locals :=
  {| l_countries := l_countries l; l_iso3_data := l_iso3_data l;
     l_cases := <[i := x]> (l_cases l); l_active := l_active l;
     l_recovered := l_recovered l; l_deaths := l_deaths l; l_tests := l_tests l;
     l_population := l_population l |}.

Definition set_active (i : nat) (x : float64) (l : locals) : locals :=
  {| l_countries := l_countries l; l_iso3_data := l_iso3_data l;
     l_cases := l_cases l; l_active := <[i := x]> (l_active l);
     l_recovered := l_recovered l; l_deaths := l_deaths l; l_tests := l_tests l;
     l_population := l_population l |}.

Definition set_recovered (i : nat) (x : float64) (l : locals) : locals :=
  {| l_countries := l_countries l; l_iso3_data := l_iso3_data l;
     l_cases := l_cases l; l_active := l_active l;
     l_recovered := <[i := x]> (l_recovered l); l_deaths := l_deaths l;
     l_tests := l_tests l; l_population := l_population l |}.

Definition set_deaths (i : nat) (x : float64) (l : locals) : locals :=
  {| l_countries := l_countries l; l_iso3_data := l_iso3_data l;
     l_cases := l_cases l; l_active := l_active l; l_recovered := l_recovered l;
     l_deaths := <[i := x]> (l_deaths l); l_tests := l_tests l;
     l_population := l_population l |}.

Definition set_tests (i : nat) (x : float64) (l : locals) : locals :=
  {| l_countries := l_countries l; l_iso3_data := l_iso3_data l;
     l_cases := l_cases l; l_active := l_active l; l_recovered := l_recovered l;
     l_deaths := l_deaths l; l_tests := <[i := x]> (l_tests l);
     l_population := l_population l |}.

Definition set_population (i : nat) (x : float64) (l : locals) : locals :=
  {| l_countries := l_countries l; l_iso3_data := l_iso3_data l;
     l_cases := l_cases l; l_active := l_active l; l_recovered := l_recovered l;
     l_deaths := l_deaths l; l_tests := l_tests l;
     l_population := <[i := x]> (l_population l) |}.

(** [len(data)] *)
Definition py_len (v : pyval) : res nat :=
  match v with
  | PList l => Ok (length l)
  | PStr s => Ok (String.length s)
  | PDict d => Ok (size d)
  | _ => Raise TypeError
  end.

Fixpoint chars (s : string) : list pyval :=
  match s with
  | EmptyString => []
  | String c s' => PStr (String c EmptyString) :: chars s'
  end.

(** The items [for item in data] visits: the elements of a list, the
    characters of a string, the keys of an object. *)
Definition py_iter (v : pyval) : res (list pyval) :=
  match v with
  | PList l => Ok l
  | PStr s => Ok (chars s)
  | PDict d => Ok ((fun kv => PStr kv.1) <$> map_to_list d)
  | _ => Raise TypeError
  end.

Section Refresh.

(** Python's [float(s)] on a string, which [numpy] applies when a string is
    stored into a float array: the number read, or nothing when the string
    does not spell one. *)
Context (str_to_float : string -> option float64).

(** Conversion done by [arr[i] = v] on a float array. *)
Definition np_setitem (v : pyval) : res float64 :=
  match v with
  | PNone => Ok NaN
  | PBool b => Ok (Fin (if b then 1 else 0))
  | PNum q => Ok (Fin q)
  | PStr s =>
      match str_to_float s with
      | Some x => Ok x
      | None => Raise ValueError
      end
  | PList _ => Raise ValueError
  | PDict _ => Raise TypeError
  end.

(** [arr[i] = item.get(key, dflt)] *)
Definition store (set : nat -> float64 -> locals -> locals) (i : nat)
    (item : pyval) (key : string) (dflt : Q) : stm locals unit :=
  v ← lift (py_get item key (PNum dflt));
  x ← lift (np_setitem v);
  modify (set i x).

(** Body of the [try] inside the loop. *)
Definition parse_record (i : nat) (item : pyval) : stm locals unit :=
  name ← lift (py_get item "country" (PStr "Unknown"));
  _ ← modify (append_country name);
  _ ← store set_cases i item "cases" 0;
  _ ← store set_active i item "active" 0;
  _ ← store set_recovered i item "recovered" 0;
  _ ← store set_deaths i item "deaths" 0;
  _ ← store set_tests i item "tests" 0;
  _ ← store set_population i item "population" 1;
  info ← lift (py_get item "countryInfo" (PDict ∅));
  code ← lift (py_get info "iso3" (PStr "Unknown"));
  modify (append_iso3 code).

(** [for i, item in enumerate(data): try: ... except (KeyError, TypeError): continue] *)
Fixpoint parse_records (i : nat) (items : list pyval) : stm locals unit :=
  match items with
  | [] => mret tt
  | item :: rest =>
      _ ← try_except_st (parse_record i item) [KeyError; TypeError] (mret tt);
      parse_records (S i) rest
  end.

Definition init_locals (n : nat) : locals :=
  {| l_countries := []; l_iso3_data := [];
     l_cases := np_zeros n; l_active := np_zeros n; l_recovered := np_zeros n;
     l_deaths := np_zeros n; l_tests := np_zeros n; l_population := np_ones n |}.

(** [np.divide(num, population, where=population != 0) * 1_000_000] *)
Definition per_million (num population : list float64) (buf : nat -> float64)
    : list float64 :=
  np_scale (np_divide_where 0 num population buf) 1000000.

(** Everything between [session.close()] and the cache write: the entry
    built from the four decoded bodies.  [heap k] is the prior content of
    the [k]-th result buffer [np.divide] allocates.  [last_updated] is the
    instant [datetime.fromtimestamp] is given; its range check and the
    rendering by [strftime] are not modelled. *)
Definition build_entry (now : Q) (heap : nat -> nat -> float64)
    (data global_data global_yesterday : pyval) : res entry :=
  n ← py_len data;
  items ← py_iter data;
  l ← (let '(r, l) := parse_records 0 items (init_locals n) in _ ← r; Ok l);
  let cases_per_million := per_million (l_cases l) (l_population l) (heap 0%nat) in
  let deaths_per_million := per_million (l_deaths l) (l_population l) (heap 1%nat) in
  let tests_per_million := per_million (l_tests l) (l_population l) (heap 2%nat) in
  new_cases ← py_get global_data "todayCases" (PNum 0);
  new_deaths ← py_get global_data "todayDeaths" (PNum 0);
  new_recovered ← py_get global_data "todayRecovered" (PNum 0);
  c ← py_get global_data "cases" (PNum 0);
  y ← py_get global_yesterday "cases" (PNum 0);
  cases_trend ← calculate_trend c y;
  c ← py_get global_data "deaths" (PNum 0);
  y ← py_get global_yesterday "deaths" (PNum 0);
  deaths_trend ← calculate_trend c y;
  c ← py_get global_data "recovered" (PNum 0);
  y ← py_get global_yesterday "recovered" (PNum 0);
  recovered_trend ← calculate_trend c y;
  updated ← py_get global_data "updated" (PNum (now * 1000));
  last_updated ← py_truediv updated (PNum 1000);
  Ok {| countries := l_countries l;
        cases := l_cases l;
        active := l_active l;
        recovered := l_recovered l;
        deaths := l_deaths l;
        iso3 := l_iso3_data l;
        cases_per_million := cases_per_million;
        deaths_per_million := deaths_per_million;
        tests_per_million := tests_per_million;
        last_updated := last_updated;
        new_cases := new_cases;
        new_deaths := new_deaths;
        new_recovered := new_recovered;
        cases_trend := cases_trend;
        deaths_trend := deaths_trend;
        recovered_trend := recovered_trend |}.

(** The [try] block: four requests in order, then [build_entry]. *)
Definition refresh (now : Q) (net : network) (heap : nat -> nat -> float64)
    : stm (list string) entry :=
  response ← session_get net url_countries;
  data ← lift (json response);
  yesterday_response ← session_get net url_countries_yesterday;
  yesterday_data ← lift (json yesterday_response);
  all_response ← session_get net url_all;
  global_data ← lift (json all_response);
  all_yesterday_response ← session_get net url_all_yesterday;
  global_yesterday ← lift (json all_yesterday_response);
  lift (build_entry now heap data global_data global_yesterday).

(** The entry returned when the refresh fails and nothing is cached. *)
Definition empty_entry (now : Q) : entry :=
  {| countries := []; cases := []; active := []; recovered := []; deaths := [];
     iso3 := []; cases_per_million := []; deaths_per_million := [];
     tests_per_million := []; last_updated := now;
     new_cases := PNum 0; new_deaths := PNum 0; new_recovered := PNum 0;
     cases_trend := PNum 0; deaths_trend := PNum 0; recovered_trend := PNum 0 |}.

(** [except Exception]: the cached entry if there is one, else zeros. *)
Definition fallback (now : Q) (c : cache) : entry :=
  match data c with
  | Some e => e
  | None => empty_entry now
  end.

Definition fetch_covid_data (force : bool) (now : Q) (net : network)
    (heap : nat -> nat -> float64) (w : world) : res entry * world :=
  let attempt :=
    match refresh now net heap (requests w) with
    | (Ok e, log) =>
        (Ok e, {| data_cache := {| data := Some e; last_fetch := Some now |};
                  requests := log |})
    | (Raise _, log) =>
        (Ok (fallback now (data_cache w)),
         {| data_cache := data_cache w; requests := log |})
    end in
  match force, data (data_cache w), last_fetch (data_cache w) with
  | false, Some e, Some t =>
      if Qlt_le_dec (now - t) 900 then (Ok e, w) else attempt
  | _, _, _ => attempt
  end.

End Refresh.

(** ** The choropleth colour scale *)

Local Open Scope string_scope.
Local Open Scope Z_scope.

Definition colors : list string :=
  [ "#4a148c"; "#7b1fa2"; "#9c27b0"; "#e91e63"; "#f44336"; "#ff5722" ].

(** [int(x)] on a number: truncation towards zero. *)
Definition py_int (q : Q) : Z := Z.quot (Qnum q) (Z.pos (Qden q)).

Definition hex_value (c : ascii) : option Z :=
  let n := Z.of_nat (nat_of_ascii c) in
  if (48 <=? n) && (n <=? 57) then Some (n - 48)
  else if (97 <=? n) && (n <=? 102) then Some (n - 87)
  else if (65 <=? n) && (n <=? 70) then Some (n - 55)
  else None.

Fixpoint hex_digits (s : string) (acc : Z) : option Z :=
  match s with
  | EmptyString => Some acc
  | String c s' =>
      match hex_value c with
      | Some d => hex_digits s' (16 * acc + d)
      | None => None
      end
  end.

(** [int(s, 16)] on a string of hexadecimal digits. *)
Definition int16 (s : string) : res Z :=
  match s with
  | EmptyString => Raise ValueError
  | _ =>
      match hex_digits s 0 with
      | Some z => Ok z
      | None => Raise ValueError
      end
  end.

Definition hex_char (d : Z) : ascii :=
  ascii_of_nat (Z.to_nat (if d <? 10 then 48 + d else 87 + d)).

Fixpoint to_hex (fuel : nat) (n : Z) : string :=
  match fuel with
  | O => ""
  | S fuel' =>
      (if n <? 16 then "" else to_hex fuel' (n / 16))
        ++ String (hex_char (n mod 16)) ""
  end.

(** [f'{n:02x}'] *)
Definition format_02x (n : Z) : string :=
  if n <? 0 then "-" ++ to_hex (Z.to_nat (- n)) (- n)
  else if n <? 16 then "0" ++ to_hex 1 n
  else to_hex (Z.to_nat n) n.

(** [c[1:3], c[3:5], c[5:7]] read in base 16. *)
Definition rgb (c : string) : res (Z * Z * Z) :=
  r ← int16 (substring 1 2 c);
  g ← int16 (substring 3 2 c);
  b ← int16 (substring 5 2 c);
  Ok (r, g, b).

(** [colors[i]] for [i >= 0]. *)
Definition color_at (i : Z) : res string :=
  match colors !! Z.to_nat i with
  | Some c => Ok c
  | None => Raise IndexError
  end.

(** [colors[-1]] and [colors[0]]. *)
Definition last_color : string := List.last colors "".
Definition first_color : string := List.hd "" colors.

(** [int(c1 * (1 - t) + c2 * t)] *)
Definition mix (c1 c2 : Z) (t : Q) : Z :=
  py_int (inject_Z c1 * (1 - t) + inject_Z c2 * t)%Q.

Definition get_color_for_value (value : Q) : res string :=
  let num_colors := Z.of_nat (length colors) - 1 in
  let segment := (value * inject_Z num_colors)%Q in
  let i := py_int segment in
  if num_colors <=? i then Ok last_color
  else if i <? 0 then Ok first_color
  else
    let t := (segment - inject_Z i)%Q in
    c1 ← color_at i;
    c2 ← color_at (i + 1);
    '(r1, g1, b1) ← rgb c1;
    '(r2, g2, b2) ← rgb c2;
    let r := mix r1 r2 t in
    let g := mix g1 g2 t in
    let b := mix b1 b2 t in
    Ok ("#" ++ format_02x r ++ format_02x g ++ format_02x b).





(** A colour with 8-bit channels, written [#rrggbb]. *)
Definition hex_color (c : Z * Z * Z) : string :=
  let '(r, g, b) := c in
  "#" ++ format_02x r ++ format_02x g ++ format_02x b.

(** ** The dashboard callback, up to the map figure *)

Record styles : Type := {
  bg_color : string;
  text_color : string;
  muted_color : string;
  card_bg : string;
  primary_color : string;
  success_color : string;
  warning_color : string;
  danger_color : string;
  info_color : string;
  chart_bg : string;
  hover_bg : string;
  icon : string
}.

Definition THEME_STYLES : gmap string styles :=
  <[ "DARKLY" :=
       {| bg_color := "#303030"; text_color := "#ffffff"; muted_color := "#888888";
          card_bg := "#444444"; primary_color := "#375a7f";
          success_color := "#00bc8c"; warning_color := "#f39c12";
          danger_color := "#e74c3c"; info_color := "#3498db";
          chart_bg := "rgba(48, 48, 48, 0.8)";
          hover_bg := "rgba(255, 255, 255, 0.1)"; icon := "fas fa-sun" |} ]>
  (<[ "FLATLY" :=
       {| bg_color := "#ffffff"; text_color := "#2c3e50"; muted_color := "#95a5a6";
          card_bg := "#f8f9fa"; primary_color := "#2c3e50";
          success_color := "#18bc9c"; warning_color := "#f39c12";
          danger_color := "#e74c3c"; info_color := "#3498db";
          chart_bg := "rgba(255, 255, 255, 0.8)";
          hover_bg := "rgba(0, 0, 0, 0.05)"; icon := "fas fa-moon" |} ]> ∅).

(** [THEME_STYLES[theme]] *)
Definition theme_styles (theme : string) : res styles :=
  match THEME_STYLES !! theme with
  | Some s => Ok s
  | None => Raise KeyError
  end.

(** A value shown on a card: a [numpy] scalar or a value of the feed. *)
Inductive scalar : Type :=
  | Np (x : float64)
  | Py (v : pyval).

(** [f"{value:,}"]: the number that is rendered with thousands separators;
    the format is refused for what is not a number. *)
Definition format_thousands (value : scalar) : res float64 :=
  match value with
  | Np x => Ok x
  | Py (PNum q) => Ok (Fin q)
  | Py (PBool b) => Ok (Fin (if b then 1 else 0))
  | Py (PStr _) => Raise ValueError
  | Py _ => Raise TypeError
  end.

(** [trend >= 0] *)
Definition py_ge0 (v : pyval) : res bool :=
  match as_number v with
  | Some q => Ok (if Qlt_le_dec q 0 then false else true)
  | None => Raise TypeError
  end.

(** [abs(trend)] *)
Definition py_abs (v : pyval) : res Q :=
  match as_number v with
  | Some q => Ok (Qabs q)
  | None => Raise TypeError
  end.

Record trend_element : Type := {
  trend_icon : string;
  trend_color : string;
  trend_magnitude : Q
}.

Record card : Type := {
  card_title : string;
  card_value : float64;
  card_subtitle : string;
  card_trend : option trend_element;
  card_color : string;
  card_title_color : string;
  card_background : string
}.

(** [trend] is [PNone] where the source passes [None]. *)
Definition create_card (title : string) (value : scalar) (subtitle : string)
    (trend : pyval) (color theme : string) : res card :=
  styles ← theme_styles theme;
  element ←
    (if py_is_none trend then Ok (@None trend_element)
     else
       up ← py_ge0 trend;
       m ← py_abs trend;
       Ok (Some {| trend_icon := if (up : bool) then "↑" else "↓";
                   trend_color := if up then "success" else "danger";
                   trend_magnitude := m |}));
  shown ← format_thousands value;
  Ok {| card_title := title; card_value := shown; card_subtitle := subtitle;
        card_trend := element; card_color := color;
        card_title_color := muted_color styles;
        card_background := card_bg styles |}.

Definition f_gt (x y : float64) : bool :=
  match x, y with
  | Fin a, Fin b => if Qlt_le_dec b a then true else false
  | _, _ => false
  end.

(** The builtin [max] over the cells of an array. *)
Definition py_max (arr : list float64) : res float64 :=
  match arr with
  | [] => Raise ValueError
  | x :: rest => Ok (foldl (fun m y => if f_gt y m then y else m) x rest)
  end.

(** [int(x)] on a [numpy] scalar. *)
Definition np_int (x : float64) : res Z :=
  match x with
  | Fin q => Ok (py_int q)
  | NaN => Raise ValueError
  end.

Fixpoint for_list {A B} (f : A -> res B) (l : list A) : res (list B) :=
  match l with
  | [] => Ok []
  | a :: l' => b ← f a; bs ← for_list f l'; Ok (b :: bs)
  end.

Record map_data : Type := {
  md_country : list pyval;
  md_iso3 : list pyval;
  md_cases : list float64;
  md_cases_per_million : list float64
}.

(** The arguments [create_map_figure] computes for [plotly]; the calls into
    [plotly] themselves are taken to succeed. *)
Record map_figure : Type := {
  locations : list pyval;
  color : list float64;
  hover_name : list pyval;
  range_color : float64 * float64;
  color_continuous_scale : list (Q * string);
  tickvals : list float64;
  last_ticktext : Z;
  framecolor : string
}.

Definition create_map_figure (md : map_data) (theme : string) : res map_figure :=
  styles ← theme_styles theme;
  max_cases ← py_max (md_cases md);
  let breaks := [Fin 0; Fin 20000000; Fin 40000000; Fin 60000000; Fin 80000000;
                 Fin 100000000; max_cases] in
  color_stops ←
    for_list (fun i : nat =>
                let normalized := (inject_Z (Z.of_nat i)
                                   / inject_Z (Z.of_nat (length breaks) - 1))%Q in
                c ← get_color_for_value normalized;
                Ok (normalized, c))
             (seq 0 (length breaks));
  millions ← np_int (f_div max_cases (Fin 1000000));
  Ok {| locations := md_iso3 md; color := md_cases md; hover_name := md_country md;
        range_color := (Fin 0, max_cases);
        color_continuous_scale := color_stops;
        tickvals := breaks; last_ticktext := millions;
        framecolor := muted_color styles |}.

Record dashboard : Type := {
  last_updated_text : Q;
  total_card : card;
  active_card : card;
  recovered_card : card;
  deaths_card : card;
  new_cases_card : card;
  new_recovered_card : card;
  new_deaths_card : card;
  map_fig : map_figure
}.

Section Dashboard.

Context (str_to_float : string -> option float64).

(** [update_dashboard(_, theme)] from its first line to the call of
    [create_map_figure]; the bar and pie figures that follow are not
    modelled. *)
Definition update_dashboard (theme : string) (now : Q) (net : network)
    (heap : nat -> nat -> float64) (w : world) : res dashboard * world :=
  let '(r, w') := fetch_covid_data str_to_float false now net heap w in
  (data ← r;
   styles ← theme_styles theme;
   let total_cases := np_sum (cases data) in
   let active_cases := np_sum (active data) in
   let recovered_total := np_sum (recovered data) in
   let deaths_total := np_sum (deaths data) in
   total ← create_card "Total Cases" (Np total_cases)
             "Cumulative cases worldwide" (cases_trend data) "primary" theme;
   act ← create_card "Active Cases" (Np active_cases)
           "Currently infected patients" PNone "warning" theme;
   rec ← create_card "Recovered" (Np recovered_total)
           "Total recovered patients" (recovered_trend data) "success" theme;
   dth ← create_card "Deaths" (Np deaths_total)
           "Total fatalities" (deaths_trend data) "danger" theme;
   ncs ← create_card "New Cases" (Py (new_cases data))
           "Cases reported today" PNone "info" theme;
   nrc ← create_card "New Recoveries" (Py (new_recovered data))
           "Recoveries reported today" PNone "success" theme;
   ndt ← create_card "New Deaths" (Py (new_deaths data))
           "Deaths reported today" PNone "danger" theme;
   fig ← create_map_figure
           {| md_country := countries data; md_iso3 := iso3 data;
              md_cases := cases data;
              md_cases_per_million := cases_per_million data |} theme;
   Ok {| last_updated_text := last_updated data;
         total_card := total; active_card := act; recovered_card := rec;
         deaths_card := dth; new_cases_card := ncs; new_recovered_card := nrc;
         new_deaths_card := ndt; map_fig := fig |},
   w').

End Dashboard.

(** ** Concrete feeds used in the examples *)

Fixpoint decimal_digits (s : string) (acc : Z) : option Z :=
  match s with
  | EmptyString => Some acc
  | String c s' =>
      let n := Z.of_nat (nat_of_ascii c) in
      if (48 <=? n) && (n <=? 57) then decimal_digits s' (10 * acc + (n - 48))
      else None
  end.

(** [float] restricted to unsigned decimal integers: enough to run the
    examples, which store no other numeric string. *)
Definition float_of_digits (s : string) : option float64 :=
  match s with
  | EmptyString => None
  | _ =>
      match decimal_digits s 0 with
      | Some z => Some (Fin (inject_Z z))
      | None => None
      end
  end.

Definition obj (fields : list (string * pyval)) : pyval := PDict (list_to_map fields).

Definition ok_json (status : Z) (body : pyval) : res response :=
  Ok {| status_code := status; json := Ok body |}.

(** A feed that answers the four requests with the given status and bodies. *)
Definition feed (status_countries status_all : Z)
    (today yesterday global global_yesterday : pyval) : network := fun url =>
  if decide (url = url_countries) then ok_json status_countries today
  else if decide (url = url_countries_yesterday) then ok_json status_countries yesterday
  else if decide (url = url_all) then ok_json status_all global
  else if decide (url = url_all_yesterday) then ok_json status_all global_yesterday
  else Raise ConnectionError.

(** A host that cannot be reached. *)
Definition unreachable : network := fun _ => Raise ConnectionError.

Definition no_cache : world :=
  {| data_cache := {| data := None; last_fetch := None |}; requests := [] |}.

Definition zero_heap : nat -> nat -> float64 := fun _ _ => Fin 0.

Definition cached (e : entry) (t : Q) : world :=
  {| data_cache := {| data := Some e; last_fetch := Some t |}; requests := [] |}.

(** A record as the feed sends it. *)
Definition country (name code : string) (n people : Q) : pyval :=
  obj [ ("country", PStr name); ("countryInfo", obj [("iso3", PStr code)]);
        ("cases", PNum n); ("active", PNum 0); ("recovered", PNum 0);
        ("deaths", PNum 0); ("tests", PNum 0); ("population", PNum people) ].

Definition no_summary : pyval := obj [].

(** An entry cached earlier, at second 0. *)
Definition prior_entry : entry :=
  {| countries := [PStr "Chile"]; cases := [Fin 5]; active := [Fin 1];
     recovered := [Fin 4]; deaths := [Fin 0]; iso3 := [PStr "CHL"];
     cases_per_million := [Fin 250]; deaths_per_million := [Fin 0];
     tests_per_million := [Fin 0]; last_updated := 0;
     new_cases := PNum 2; new_deaths := PNum 0; new_recovered := PNum 1;
     cases_trend := PNum 3; deaths_trend := PNum 0; recovered_trend := PNum 1 |}.

(** The per-country endpoints answer; the summary endpoints answer 503 with
    a JSON error object. *)
Definition summary_outage : network :=
  let message := obj [("message", PStr "Service Unavailable")] in
  feed 200 503 (PList [country "Peru" "PER" 40 1000]) (PList []) message message.

(** Record 2 carries a string where the number of cases is expected. *)
Definition batch_string_cases : pyval :=
  PList [ country "Peru" "PER" 40 1000;
          obj [("country", PStr "Fiji"); ("cases", PStr "n/a")];
          country "Togo" "TGO" 7 1000 ].

(** Record 2 carries the digits of a number as a string. *)
Definition batch_digit_string : pyval :=
  PList [ country "Peru" "PER" 40 1000;
          obj [("country", PStr "Fiji"); ("cases", PStr "12")];
          country "Togo" "TGO" 7 1000 ].

(** Record 2 is not an object. *)
Definition batch_non_object : pyval :=
  PList [ country "Peru" "PER" 40 1000; PStr "oops"; country "Togo" "TGO" 7 1000 ].

(** One record whose number of cases is an object. *)
Definition batch_object_cases : pyval :=
  PList [ obj [("country", PStr "Fiji"); ("cases", obj []);
               ("countryInfo", obj [("iso3", PStr "FJI")])] ].

(** One record that reports a population of 0. *)
Definition batch_zero_population : pyval :=
  PList [ obj [("country", PStr "Diamond Princess"); ("cases", PNum 712);
               ("deaths", PNum 13); ("tests", PNum 0); ("population", PNum 0)] ].

Definition serving (batch : pyval) : network :=
  feed 200 200 batch batch no_summary no_summary.


(** [f'{n:02x}'] has two digits, and they read back as [n]. *)
Definition byte_roundtrip (n : nat) : bool :=
  match format_02x (Z.of_nat n) with
  | String c1 (String c2 EmptyString) =>
      match hex_digits (String c1 (String c2 EmptyString)) 0 with
      | Some z => (z =? Z.of_nat n)%Z
      | None => false
      end
  | _ => false
  end.

(** Lengths of the six float arrays of the loop. *)
Definition widths (l : locals) : list nat :=
  [ length (l_cases l); length (l_active l); length (l_recovered l);
    length (l_deaths l); length (l_tests l); length (l_population l) ].

(** A step of the loop body that appends neither a name nor an ISO code
    and keeps the arrays at their length. *)
Definition neutral {A} (m : stm locals A) : Prop :=
  forall l,
    widths (m l).2 = widths l /\
    l_countries (m l).2 = l_countries l /\
    l_iso3_data (m l).2 = l_iso3_data l.

Definition caught_in_loop (e : exn) : bool := existsb (exn_eqb e) [KeyError; TypeError].

(** What one run of the loop body leaves behind, from the locals [l]: the
    arrays keep their length; a record parsed to the end adds one name and
    one ISO code; a record that raises what the loop catches has added its
    name and no ISO code. *)
Definition record_post (l : locals) (rl : res unit * locals) : Prop :=
  widths rl.2 = widths l /\
  match rl.1 with
  | Ok _ =>
      length (l_countries rl.2) = S (length (l_countries l)) /\
      length (l_iso3_data rl.2) = S (length (l_iso3_data l))
  | Raise e =>
      caught_in_loop e = true ->
      length (l_countries rl.2) = S (length (l_countries l)) /\
      length (l_iso3_data rl.2) = length (l_iso3_data l)
  end.

(** The four requests of a refresh round. *)
Definition round_urls : list string :=
  [url_countries; url_countries_yesterday; url_all; url_all_yesterday].

(** Two feeds that raise the same and decode to the same bodies, whatever
    the status codes. *)
Definition same_bodies (net1 net2 : network) : Prop :=
  forall u,
    match net1 u, net2 u with
    | Ok r1, Ok r2 => json r1 = json r2
    | Raise x1, Raise x2 => x1 = x2
    | _, _ => False
    end.

(** ** Proof steps used throughout *)

(** Split a conjunction into its parts, and nothing else. *)
Ltac conjuncts := repeat match goal with |- _ /\ _ => split end.



(** A setter of one array keeps every length. *)
Ltac setter := intros ? ?; unfold widths; cbn; rewrite ?length_insert; repeat split.

(** ** Theme callbacks *)

Local Open Scope list_scope.

(** The stylesheets [dbc.themes.DARKLY] and [dbc.themes.FLATLY]. *)
Inductive stylesheet : Type :=
  | Darkly
  | Flatly.

(** [THEME_STYLES[theme]['theme']] *)
Definition theme_stylesheet (theme : string) : res stylesheet :=
  if decide (theme = "DARKLY") then Ok Darkly
  else if decide (theme = "FLATLY") then Ok Flatly
  else Raise KeyError.

(** The entries of the button and content styles that depend on the theme;
    the others are constants. *)
Record button_style : Type := {
  button_background : string;
  button_color : string
}.

Record content_style : Type := {
  content_background : string;
  content_color : string
}.

Record card_style : Type := {
  style_background : string;
  style_color : string
}.

(** [toggle_theme(n_clicks, current_theme)]; the state is the list of
    stylesheets registered with [app.css]. *)
Definition toggle_theme (n_clicks : option Z) (current_theme : string)
    : stm (list stylesheet) (string * string * button_style * content_style) :=
  let n_clicks := default 0 n_clicks in
  let new_theme := if decide (current_theme = "DARKLY") then "FLATLY" else "DARKLY" in
  styles ← lift (theme_styles new_theme);
  let button := {| button_background := card_bg styles;
                   button_color := text_color styles |} in
  let content := {| content_background := bg_color styles;
                    content_color := text_color styles |} in
  _ ← (if decide (current_theme <> new_theme)
       then sheet ← lift (theme_stylesheet new_theme);
            modify (fun css => css ++ [sheet])
       else mret tt);
  mret (new_theme, icon styles, button, content).

(** [update_card_styles(theme)] *)
Definition update_card_styles (theme : string) : res (list card_style) :=
  styles ← theme_styles theme;
  let style := {| style_background := card_bg styles;
                  style_color := text_color styles |} in
  Ok (replicate 7 style).

(** ** The bar chart of [update_dashboard] *)

(** [order[-10:][::-1]] *)
Definition top_10 (order : list nat) : list nat :=
  rev (drop (length order - 10) order).

(** [l[i]] for [i >= 0]. *)
Definition py_index {A} (l : list A) (i : nat) : res A :=
  match l !! i with
  | Some x => Ok x
  | None => Raise IndexError
  end.

Record bar_data : Type := {
  bar_country : list pyval;
  bar_cases : list float64;
  bar_cases_per_million : list float64
}.

(** The three list comprehensions over [top_10_indices]; [order] is what
    [np.argsort(data['cases'])] returned. *)
Definition make_bar_data (data : entry) (order : list nat) : res bar_data :=
  let top_10_indices := top_10 order in
  country ← for_list (py_index (countries data)) top_10_indices;
  cs ← for_list (py_index (cases data)) top_10_indices;
  rates ← for_list (py_index (cases_per_million data)) top_10_indices;
  Ok {| bar_country := country; bar_cases := cs; bar_cases_per_million := rates |}.

(** The finite value of a cell. *)
Definition finite (x : float64) : option Q :=
  match x with
  | Fin q => Some q
  | NaN => None
  end.

(** What [np.argsort] guarantees on finite cells: the indices of the array,
    each once, in an order that does not decrease the cells. *)
Definition argsort_of (arr : list float64) (order : list nat) : Prop :=
  order ≡ₚ seq 0 (length arr) /\
  forall a b i j x y,
    (a <= b)%nat -> order !! a = Some i -> order !! b = Some j ->
    arr !! i = Some (Fin x) -> arr !! j = Some (Fin y) -> (x <= y)%Q.

(** ** Records parsed to the end *)

(** The values the loop stores for a record that is well formed: an object
    whose six numbers, where present, convert, and whose [countryInfo],
    where present, is an object. *)
Record row : Type := {
  row_country : pyval;
  row_iso3 : pyval;
  row_cases : float64;
  row_active : float64;
  row_recovered : float64;
  row_deaths : float64;
  row_tests : float64;
  row_population : float64
}.

Section Rows.

Context (str_to_float : string -> option float64).

Definition cell (d : gmap string pyval) (key : string) (dflt : Q) : option float64 :=
  match np_setitem str_to_float (default (PNum dflt) (d !! key)) with
  | Ok x => Some x
  | Raise _ => None
  end.

Definition row_of (item : pyval) : option row :=
  match item with
  | PDict d =>
      c ← cell d "cases" 0;
      a ← cell d "active" 0;
      r ← cell d "recovered" 0;
      dt ← cell d "deaths" 0;
      t ← cell d "tests" 0;
      p ← cell d "population" 1;
      match default (PDict ∅) (d !! "countryInfo") with
      | PDict info =>
          Some {| row_country := default (PStr "Unknown") (d !! "country");
                  row_iso3 := default (PStr "Unknown") (info !! "iso3");
                  row_cases := c; row_active := a; row_recovered := r;
                  row_deaths := dt; row_tests := t; row_population := p |}
      | _ => None
      end
  | _ => None
  end.

End Rows.

(** The locals after the first [length done] records were parsed to the
    end, in arrays of [n] cells. *)
Definition locals_after (n : nat) (done : list row) : locals :=
  let rest := (n - length done)%nat in
  {| l_countries := row_country <$> done;
     l_iso3_data := row_iso3 <$> done;
     l_cases := (row_cases <$> done) ++ replicate rest (Fin 0);
     l_active := (row_active <$> done) ++ replicate rest (Fin 0);
     l_recovered := (row_recovered <$> done) ++ replicate rest (Fin 0);
     l_deaths := (row_deaths <$> done) ++ replicate rest (Fin 0);
     l_tests := (row_tests <$> done) ++ replicate rest (Fin 0);
     l_population := (row_population <$> done) ++ replicate rest (Fin 1) |}.

(** A slot holds an entry and its time of fetch, or neither. *)
Definition slot_consistent (c : cache) : Prop :=
  match data c, last_fetch c with
  | Some _, Some _ | None, None => True
  | _, _ => False
  end.

(** An entry the cards and the map accept: numbers (or [None]) as trends,
    numbers as today's counts, and a first cell of cases that is a number. *)
Definition numeric_or_none (v : pyval) : Prop :=
  v = PNone \/ exists q, as_number v = Some q.


(** The condition under which [fetch_covid_data] returns the cached entry
    without a refresh. *)
Definition hit (force : bool) (now : Q) (c : cache) : Prop :=
  force = false /\
  exists e t, data c = Some e /\ last_fetch c = Some t /\ (now - t < 900)%Q.

Definition miss (force : bool) (now : Q) (c : cache) : Prop :=
  force = true \/
  forall e t, data c = Some e -> last_fetch c = Some t -> (900 <= now - t)%Q.

(** The trend [build_entry] derives from the two summary objects for one
    key. *)
Definition summary_trend (g y : gmap string pyval) (key : string) : Q :=
  match as_number (default (PNum 0) (g !! key)),
        as_number (default (PNum 0) (y !! key)) with
  | Some c, Some p => if Qzero p then 0 else ((c - p) / p * 100)%Q
  | _, _ => 0%Q
  end.

(** The entry [build_entry] makes of the locals of the loop and of two
    summary objects, [updated] being the time stamp in milliseconds. *)
Definition entry_of (l : locals) (heap : nat -> nat -> float64)
    (g y : gmap string pyval) (updated : Q) : entry :=
  {| countries := l_countries l;
     cases := l_cases l;
     active := l_active l;
     recovered := l_recovered l;
     deaths := l_deaths l;
     iso3 := l_iso3_data l;
     cases_per_million := per_million (l_cases l) (l_population l) (heap 0%nat);
     deaths_per_million := per_million (l_deaths l) (l_population l) (heap 1%nat);
     tests_per_million := per_million (l_tests l) (l_population l) (heap 2%nat);
     last_updated := (updated / 1000)%Q;
     new_cases := default (PNum 0) (g !! "todayCases");
     new_deaths := default (PNum 0) (g !! "todayDeaths");
     new_recovered := default (PNum 0) (g !! "todayRecovered");
     cases_trend := PNum (summary_trend g y "cases");
     deaths_trend := PNum (summary_trend g y "deaths");
     recovered_trend := PNum (summary_trend g y "recovered") |}.

(** ** Concrete inputs for the further examples *)

(** A full record, a record with a name and a count only, and an empty
    object. *)
Definition sample_batch : list pyval :=
  [ country "Peru" "PER" 40 1000;
    obj [("country", PStr "Fiji"); ("cases", PNum 12)];
    obj [] ].

Definition sample_rows : list row :=
  [ {| row_country := PStr "Peru"; row_iso3 := PStr "PER"; row_cases := Fin 40;
       row_active := Fin 0; row_recovered := Fin 0; row_deaths := Fin 0;
       row_tests := Fin 0; row_population := Fin 1000 |};
    {| row_country := PStr "Fiji"; row_iso3 := PStr "Unknown"; row_cases := Fin 12;
       row_active := Fin 0; row_recovered := Fin 0; row_deaths := Fin 0;
       row_tests := Fin 0; row_population := Fin 1 |};
    {| row_country := PStr "Unknown"; row_iso3 := PStr "Unknown"; row_cases := Fin 0;
       row_active := Fin 0; row_recovered := Fin 0; row_deaths := Fin 0;
       row_tests := Fin 0; row_population := Fin 1 |} ].

Definition sample_today : gmap string pyval :=
  list_to_map [("todayCases", PNum 5); ("cases", PNum 110)].

Definition sample_yesterday : gmap string pyval :=
  list_to_map [("cases", PNum 100)].

(** The entry a round builds at second 1000 from the sample batch and the
    sample summaries. *)
Definition sample_entry : entry :=
  entry_of (locals_after 3 sample_rows) zero_heap sample_today sample_yesterday
           (1000 * 1000).

(** * Properties *)

Local Open Scope list_scope.


(** ** Trend and ratio *)

Lemma Qzero_true (q : Q) : Qzero q = true <-> q == 0.
Proof. unfold Qzero. apply Qeq_bool_iff. Qed.


(** The value [calculate_trend] returns, for every pair of arguments. *)
Lemma calculate_trend_eq (current previous : pyval) :
  calculate_trend current previous =
  Ok (PNum match as_number current, as_number previous with
           | Some c, Some p => if Qzero p then 0 else (c - p) / p * 100
           | _, _ => 0
           end).
Proof.
  unfold calculate_trend, py_eq_zero, py_sub, py_truediv.
  destruct previous as [| [] | p | | |]; cbn;
    destruct current as [| [] | c | | |]; cbn; try reflexivity;
    destruct (Qzero p) eqn:E; cbn; rewrite ?E; reflexivity.
Qed.







(** ** The cache: hits, refreshes and the request log *)

Section Cache.

Context (str_to_float : string -> option float64).

Lemma fetches_app (l1 l2 : list string) :
  fetches (l1 ++ l2) = (fetches l1 + fetches l2)%nat.
Proof. unfold fetches. rewrite filter_app, length_app. reflexivity. Qed.

(** A refresh round sends the per-country request first and never sends it
    again; what follows are the other three requests, as far as it gets. *)
Lemma refresh_log now net heap log :
  exists rest,
    (refresh str_to_float now net heap log).2 = log ++ url_countries :: rest /\
    fetches rest = 0%nat.
Proof.
  unfold refresh, session_get, lift, mbind, stm_bind.
  cbn -[build_entry url_countries url_countries_yesterday url_all url_all_yesterday].
  destruct (net url_countries) as [r1|]; [|exists []; rewrite <- ?app_assoc; done].
  destruct (json r1); [|exists []; rewrite <- ?app_assoc; done].
  destruct (net url_countries_yesterday) as [r2|];
    [|exists [url_countries_yesterday]; rewrite <- ?app_assoc; done].
  destruct (json r2);
    [|exists [url_countries_yesterday]; rewrite <- ?app_assoc; done].
  destruct (net url_all) as [r3|];
    [|exists [url_countries_yesterday; url_all]; rewrite <- ?app_assoc; done].
  destruct (json r3);
    [|exists [url_countries_yesterday; url_all]; rewrite <- ?app_assoc; done].
  destruct (net url_all_yesterday) as [r4|];
    [|exists [url_countries_yesterday; url_all; url_all_yesterday];
      rewrite <- ?app_assoc; done].
  destruct (json r4);
    exists [url_countries_yesterday; url_all; url_all_yesterday];
    rewrite <- ?app_assoc; done.
Qed.

Lemma refresh_fetches now net heap log :
  fetches (refresh str_to_float now net heap log).2 = S (fetches log).
Proof.
  destruct (refresh_log now net heap log) as (rest & -> & Hrest).
  rewrite fetches_app. change (url_countries :: rest) with ([url_countries] ++ rest).
  rewrite fetches_app, Hrest.
  assert (fetches [url_countries] = 1%nat) as -> by (vm_compute; reflexivity).
  lia.
Qed.

(** A hit: the entry in the slot comes back and the world is as before. *)
Lemma fetch_hit now t e net heap w :
  data (data_cache w) = Some e -> last_fetch (data_cache w) = Some t ->
  (now - t < 900)%Q ->
  fetch_covid_data str_to_float false now net heap w = (Ok e, w).
Proof.
  intros Hd Ht Hlt. unfold fetch_covid_data. rewrite Hd, Ht.
  destruct (Qlt_le_dec (now - t) 900) as [_|Hge]; [reflexivity|].
  exfalso. apply (Qlt_not_le _ _ Hlt Hge).
Qed.

(** A miss: the call is the refresh attempt and its outcome. *)
Lemma fetch_miss force now net heap w :
  (force = true \/
   forall e t, data (data_cache w) = Some e -> last_fetch (data_cache w) = Some t ->
               (900 <= now - t)%Q) ->
  fetch_covid_data str_to_float force now net heap w =
  match refresh str_to_float now net heap (requests w) with
  | (Ok e, log) =>
      (Ok e, {| data_cache := {| data := Some e; last_fetch := Some now |};
                requests := log |})
  | (Raise _, log) =>
      (Ok (fallback now (data_cache w)),
       {| data_cache := data_cache w; requests := log |})
  end.
Proof.
  intros H. unfold fetch_covid_data.
  destruct force; [reflexivity|].
  destruct H as [H|H]; [discriminate|].
  destruct (data (data_cache w)) as [e|] eqn:Hd; [|reflexivity].
  destruct (last_fetch (data_cache w)) as [t|] eqn:Ht; [|reflexivity].
  destruct (Qlt_le_dec (now - t) 900) as [Hlt|_]; [|reflexivity].
  exfalso. apply (Qlt_not_le _ _ Hlt). eauto.
Qed.

Lemma fetch_miss_fetches force now net heap w :
  (force = true \/
   forall e t, data (data_cache w) = Some e -> last_fetch (data_cache w) = Some t ->
               (900 <= now - t)%Q) ->
  fetches (requests (fetch_covid_data str_to_float force now net heap w).2) = S (fetches (requests w)).
Proof.
  intros H. rewrite (fetch_miss _ _ _ _ _ H).
  pose proof (refresh_fetches now net heap (requests w)) as Hf.
  destruct (refresh str_to_float now net heap (requests w)) as [[e|x] log]; exact Hf.
Qed.

(** C1.  With an entry [e] fetched at [t] in the slot: an unforced call
    less than 900 seconds after [t] returns [e] and leaves the world as it
    was, so no request is sent; two such calls in a row send no request
    (at most one refresh round between them); and an unforced call 900
    seconds or more after [t] begins exactly one refresh round, whatever
    the network answers; when that round succeeds, a second unforced call
    less than 900 seconds later returns the new entry without another
    round. *)
Theorem cache_freshness_window (e : entry) (t : Q) (w : world)
    (Hdata : data (data_cache w) = Some e)
    (Hstamp : last_fetch (data_cache w) = Some t) :
  (forall now net heap,
      (now - t < 900)%Q ->
      fetch_covid_data str_to_float false now net heap w = (Ok e, w)) /\
  (forall now1 net1 heap1 now2 net2 heap2,
      (now1 - t < 900)%Q -> (now2 - t < 900)%Q ->
      let '(r1, w1) := fetch_covid_data str_to_float false now1 net1 heap1 w in
      let '(r2, w2) := fetch_covid_data str_to_float false now2 net2 heap2 w1 in
      r1 = Ok e /\ r2 = Ok e /\ w2 = w /\
      (fetches (requests w2) <= fetches (requests w) + 1)%nat) /\
  (forall now net heap,
      (900 <= now - t)%Q ->
      fetches (requests (fetch_covid_data str_to_float false now net heap w).2)
      = S (fetches (requests w))) /\
  (forall now1 net1 heap1 now2 net2 heap2 e1 log1,
      (900 <= now1 - t)%Q -> (now2 - now1 < 900)%Q ->
      refresh str_to_float now1 net1 heap1 (requests w) = (Ok e1, log1) ->
      let '(r1, w1) := fetch_covid_data str_to_float false now1 net1 heap1 w in
      let '(r2, w2) := fetch_covid_data str_to_float false now2 net2 heap2 w1 in
      r1 = Ok e1 /\ r2 = Ok e1 /\
      last_fetch (data_cache w2) = Some now1 /\
      fetches (requests w2) = S (fetches (requests w))).
Proof.
  conjuncts.
  - intros now net heap Hlt. exact (fetch_hit now t e net heap w Hdata Hstamp Hlt).
  - intros now1 net1 heap1 now2 net2 heap2 H1 H2.
    rewrite (fetch_hit now1 t e net1 heap1 w Hdata Hstamp H1).
    rewrite (fetch_hit now2 t e net2 heap2 w Hdata Hstamp H2).
    repeat split. lia.
  - intros now net heap Hge. apply fetch_miss_fetches. right.
    intros e' t' He' Ht'. rewrite Hstamp in Ht'. injection Ht' as <-. exact Hge.
  - intros now1 net1 heap1 now2 net2 heap2 e1 log1 Hge Hlt Hok.
    assert (force_or_stale : false = true \/
              forall e' t', data (data_cache w) = Some e' ->
                            last_fetch (data_cache w) = Some t' ->
                            (900 <= now1 - t')%Q).
    { right. intros e' t' He' Ht'. rewrite Hstamp in Ht'. injection Ht' as <-.
      exact Hge. }
    pose proof (fetch_miss_fetches false now1 net1 heap1 w force_or_stale) as Hcount.
    rewrite (fetch_miss false now1 net1 heap1 w force_or_stale) in Hcount |- *.
    rewrite Hok in Hcount |- *. cbn in Hcount.
    rewrite (fetch_hit now2 now1 e1 net2 heap2) by (reflexivity || exact Hlt).
    cbn. repeat split. exact Hcount.
Qed.

(** The call returns an entry on every path: the handler of the refresh
    catches whatever is raised. *)
Lemma fetch_never_raises force now net heap w :
  exists e, (fetch_covid_data str_to_float force now net heap w).1 = Ok e.
Proof.
  unfold fetch_covid_data.
  destruct (refresh str_to_float now net heap (requests w)) as [[e|x] log];
    destruct force, (data (data_cache w)), (last_fetch (data_cache w));
    try destruct (Qlt_le_dec _ _); cbn; eauto.
Qed.

(** Requests that raise, and bodies that do not decode, make the round
    raise. *)
Lemma refresh_raises now net heap log :
  (exists u, u ∈ round_urls /\
     match net u with
     | Raise _ => True
     | Ok r => exists x, json r = Raise x
     end) ->
  exists x log', refresh str_to_float now net heap log = (Raise x, log').
Proof.
  intros (u & Hu & Hbad).
  unfold refresh, session_get, lift, mbind, stm_bind.
  cbn -[build_entry url_countries url_countries_yesterday url_all url_all_yesterday].
  unfold round_urls in Hu. rewrite !elem_of_cons in Hu.
  destruct (net url_countries) as [r1|] eqn:E1; [|eauto].
  destruct (json r1) eqn:J1; [|eauto].
  destruct (net url_countries_yesterday) as [r2|] eqn:E2; [|eauto].
  destruct (json r2) eqn:J2; [|eauto].
  destruct (net url_all) as [r3|] eqn:E3; [|eauto].
  destruct (json r3) eqn:J3; [|eauto].
  destruct (net url_all_yesterday) as [r4|] eqn:E4; [|eauto].
  destruct (json r4) eqn:J4; [|eauto].
  exfalso.
  destruct Hu as [-> | [-> | [-> | [-> | Hu]]]];
    [rewrite E1 in Hbad | rewrite E2 in Hbad | rewrite E3 in Hbad
     | rewrite E4 in Hbad | inversion Hu];
    destruct Hbad as [x Hx]; congruence.
Qed.

(** The status code of a response has no part in the outcome: feeds that
    agree on what is raised and on the decoded bodies give the same round. *)
Lemma refresh_ignores_status now net1 net2 heap log :
  same_bodies net1 net2 ->
  refresh str_to_float now net1 heap log = refresh str_to_float now net2 heap log.
Proof.
  intros H.
  pose proof (H url_countries) as H1. pose proof (H url_countries_yesterday) as H2.
  pose proof (H url_all) as H3. pose proof (H url_all_yesterday) as H4.
  unfold refresh, session_get, lift, mbind, stm_bind.
  cbn -[build_entry url_countries url_countries_yesterday url_all url_all_yesterday].
  destruct (net1 url_countries) as [ra1|], (net2 url_countries) as [rb1|];
    try contradiction; [rewrite H1; clear H1 | congruence].
  destruct (json rb1); [|reflexivity].
  destruct (net1 url_countries_yesterday) as [ra2|],
           (net2 url_countries_yesterday) as [rb2|];
    try contradiction; [rewrite H2; clear H2 | congruence].
  destruct (json rb2); [|reflexivity].
  destruct (net1 url_all) as [ra3|], (net2 url_all) as [rb3|];
    try contradiction; [rewrite H3; clear H3 | congruence].
  destruct (json rb3); [|reflexivity].
  destruct (net1 url_all_yesterday) as [ra4|], (net2 url_all_yesterday) as [rb4|];
    try contradiction; [rewrite H4; clear H4 | congruence].
  reflexivity.
Qed.

(** C3, as the code has it.  With an entry [e] in the slot, a call whose
    refresh round raises (as it does when a request raises, on a
    connection error or a timeout, and when a body does not decode as
    JSON) returns [e] itself and leaves the slot as it was, forced or not;
    the call does not raise.  The status code of a response is not
    inspected: it does not make a round fail. *)
Theorem stale_fallback (force : bool) (now : Q) (net : network)
    (heap : nat -> nat -> float64) (w : world) (e : entry)
    (Hdata : data (data_cache w) = Some e) :
  ((exists x log, refresh str_to_float now net heap (requests w) = (Raise x, log)) ->
   exists log,
     fetch_covid_data str_to_float force now net heap w
     = (Ok e, {| data_cache := data_cache w; requests := log |})) /\
  ((exists u, u ∈ round_urls /\
      match net u with
      | Raise _ => True
      | Ok r => exists x, json r = Raise x
      end) ->
   exists x log, refresh str_to_float now net heap (requests w) = (Raise x, log)) /\
  (forall net', same_bodies net net' ->
     fetch_covid_data str_to_float force now net' heap w
     = fetch_covid_data str_to_float force now net heap w).
Proof.
  conjuncts.
  - intros (x & log & Hfail). unfold fetch_covid_data. rewrite Hfail, Hdata.
    unfold fallback. rewrite Hdata.
    destruct force; [eauto|].
    destruct (last_fetch (data_cache w)); [|eauto].
    destruct (Qlt_le_dec _ _); [|eauto].
    exists (requests w). destruct w. reflexivity.
  - apply refresh_raises.
  - intros net' Hsame. unfold fetch_covid_data.
    rewrite (refresh_ignores_status now net net' heap (requests w) Hsame).
    reflexivity.
Qed.


End Cache.

Lemma cache_freshness_window_witness :
  fetch_covid_data float_of_digits false 600 unreachable zero_heap (cached prior_entry 0)
  = (Ok prior_entry, cached prior_entry 0) /\
  fetches (requests (fetch_covid_data float_of_digits false 900 unreachable zero_heap
                       (cached prior_entry 0)).2) = 1%nat.
Proof.
  destruct (cache_freshness_window float_of_digits prior_entry 0 (cached prior_entry 0)
              eq_refl eq_refl) as (Hhit & _ & Hmiss & _).
  split.
  - apply Hhit. reflexivity.
  - apply (Hmiss 900%Q unreachable zero_heap). discriminate.
Defined.

Lemma stale_fallback_witness :
  exists log,
    fetch_covid_data float_of_digits true 1000 unreachable zero_heap (cached prior_entry 0)
    = (Ok prior_entry,
       {| data_cache := data_cache (cached prior_entry 0); requests := log |}).
Proof.
  destruct (stale_fallback float_of_digits true 1000 unreachable zero_heap
              (cached prior_entry 0) prior_entry eq_refl) as (Hback & Hraise & _).
  apply Hback. apply Hraise. exists url_countries. split; [|exact I].
  apply list_elem_of_here.
Defined.

(** C3 as stated fails where the status is the only sign of failure: the
    summary endpoints answer 503 with a JSON error object, the forced call
    takes the round for a success, returns a new entry and overwrites the
    slot. *)
Lemma stale_fallback_counterexample :
  (exists r, summary_outage url_all = Ok r /\ status_code r = 503) /\
  data (data_cache (cached prior_entry 0)) = Some prior_entry /\
  (fetch_covid_data float_of_digits true 1000 summary_outage zero_heap
     (cached prior_entry 0)).1 <> Ok prior_entry /\
  data_cache (fetch_covid_data float_of_digits true 1000 summary_outage zero_heap
                (cached prior_entry 0)).2
  <> data_cache (cached prior_entry 0).
Proof.
  split; [eexists; split; reflexivity|].
  split; [reflexivity|].
  split; vm_compute; intros E; discriminate E.
Qed.


(** ** Malformed records *)

(** What the stores into the float arrays do with a value of the feed. *)
Lemma np_setitem_string (str_to_float : string -> option float64) (s : string) :
  str_to_float s = None -> np_setitem str_to_float (PStr s) = Raise ValueError.
Proof. intros H. cbn. rewrite H. reflexivity. Qed.

Lemma py_get_non_object (v : pyval) (key : string) (dflt : pyval) :
  (forall d, v <> PDict d) -> py_get v key dflt = Raise AttributeError.
Proof. intros H. destruct v; try reflexivity. destruct (H d eq_refl). Qed.

(** C2, at the two batches of the scenario.  A record whose [cases] is a
    string that spells no number raises [ValueError] in the store, and a
    record that is not an object raises [AttributeError] at its first
    [get]; the handler inside the loop catches neither, so the round is
    abandoned: with nothing cached the call returns the empty entry (0
    countries, not 3 and not 2), and with an entry cached it returns that
    one.  A string of digits is stored as the number it spells, not as 0. *)
Theorem malformed_record_aborts_batch (now : Q) (heap : nat -> nat -> float64) :
  (fetch_covid_data float_of_digits false now (serving batch_string_cases) heap
     no_cache).1 = Ok (empty_entry now) /\
  (fetch_covid_data float_of_digits false now (serving batch_non_object) heap
     no_cache).1 = Ok (empty_entry now) /\
  (fetch_covid_data float_of_digits true now (serving batch_string_cases) heap
     (cached prior_entry 0)).1 = Ok prior_entry /\
  (fetch_covid_data float_of_digits true now (serving batch_non_object) heap
     (cached prior_entry 0)).1 = Ok prior_entry /\
  exists e,
    (fetch_covid_data float_of_digits false now (serving batch_digit_string) heap
       no_cache).1 = Ok e /\
    length (countries e) = 3%nat /\ cases e = [Fin 40; Fin 12; Fin 7].
Proof.
  conjuncts; try (vm_compute; reflexivity).
  eexists. split; [vm_compute; reflexivity|]. split; reflexivity.
Qed.

(** ** Lengths of the parallel collections *)

(** C10, at a batch of one record whose [cases] is an object.  The store
    raises [TypeError] after the name was appended and before the ISO code
    is; the handler catches it and the loop goes on, so the round succeeds
    and caches an entry with one country, one cell in every array, and no
    ISO code. *)
Theorem partial_record_breaks_lengths (now : Q) (heap : nat -> nat -> float64) :
  exists e w,
    fetch_covid_data float_of_digits false now (serving batch_object_cases) heap
      no_cache = (Ok e, w) /\
    data (data_cache w) = Some e /\
    length (countries e) = 1%nat /\
    length (iso3 e) = 0%nat /\
    length (cases e) = 1%nat /\
    length (cases_per_million e) = 1%nat.
Proof.
  eexists. eexists. split; [vm_compute; reflexivity|].
  repeat split.
Qed.

(** ** Per-million rates *)

(** C6, at a record that reports a population of 0.  The division is
    masked out for that cell and nothing is written to it: the rate is
    whatever the fresh result buffer held, times 1,000,000, and so need
    not be 0, nor non-negative, nor a number. *)
Theorem per_million_zero_population (now : Q) (junk : float64) :
  exists e,
    (fetch_covid_data float_of_digits false now (serving batch_zero_population)
       (fun _ _ => junk) no_cache).1 = Ok e /\
    cases e = [Fin 712] /\
    cases_per_million e = [f_mul junk (Fin 1000000)] /\
    deaths_per_million e = [f_mul junk (Fin 1000000)] /\
    tests_per_million e = [f_mul junk (Fin 1000000)] /\
    (junk = Fin 1 -> cases_per_million e <> [Fin 0]) /\
    (junk = NaN -> cases_per_million e = [NaN]).
Proof.
  eexists. split; [vm_compute; reflexivity|].
  conjuncts; try reflexivity.
  - intros ->. vm_compute. intros E. discriminate E.
  - intros ->. reflexivity.
Qed.

Lemma per_million_zero_population_witness :
  exists e,
    (fetch_covid_data float_of_digits false 1000 (serving batch_zero_population)
       (fun _ _ => Fin 1) no_cache).1 = Ok e /\
    cases_per_million e <> [Fin 0].
Proof.
  destruct (per_million_zero_population 1000 (Fin 1))
    as (e & Hcall & _ & _ & _ & _ & Hnonzero & _).
  exists e. split; [exact Hcall|]. apply Hnonzero. reflexivity.
Defined.

(** ** The dashboard on the empty entry *)

Lemma create_map_figure_empty (md : map_data) (theme : string) (s : styles) :
  theme_styles theme = Ok s -> md_cases md = [] ->
  create_map_figure md theme = Raise ValueError.
Proof.
  intros Hs Hc. unfold create_map_figure. rewrite Hs, Hc. reflexivity.
Qed.

(** C5, at the degraded entry.  With nothing cached and a refresh round
    that raises, the callback gets the empty entry, builds the seven cards,
    and then raises [ValueError] in [create_map_figure], where [max] is
    taken over the empty array of cases: the update does not complete. *)
Theorem dashboard_raises_on_empty_entry (str_to_float : string -> option float64)
    (theme : string) (now : Q) (net : network) (heap : nat -> nat -> float64)
    (w : world) (x : exn) (log : list string)
    (Htheme : theme = "DARKLY" \/ theme = "FLATLY")
    (Hdata : data (data_cache w) = None)
    (Hfail : refresh str_to_float now net heap (requests w) = (Raise x, log)) :
  (update_dashboard str_to_float theme now net heap w).1 = Raise ValueError.
Proof.
  unfold update_dashboard, fetch_covid_data.
  rewrite Hfail, Hdata. unfold fallback. rewrite Hdata.
  destruct Htheme as [-> | ->]; vm_compute; reflexivity.
Qed.

Lemma dashboard_raises_on_empty_entry_witness :
  (update_dashboard float_of_digits "DARKLY" 1000 unreachable zero_heap no_cache).1
  = Raise ValueError.
Proof.
  apply (dashboard_raises_on_empty_entry float_of_digits "DARKLY" 1000 unreachable
           zero_heap no_cache ConnectionError [url_countries]).
  - left. reflexivity.
  - reflexivity.
  - reflexivity.
Defined.

(** ** The colour scale *)

Local Open Scope Q_scope.













(** Reading back a colour the code wrote gives its channels. *)
Lemma bytes_roundtrip : forallb byte_roundtrip (seq 0 256) = true.
Proof. vm_compute. reflexivity. Qed.

Lemma format_02x_byte (n : Z) :
  (0 <= n <= 255)%Z ->
  exists c1 c2,
    format_02x n = String c1 (String c2 EmptyString) /\
    hex_digits (String c1 (String c2 EmptyString)) 0 = Some n.
Proof.
  intros Hn.
  pose proof bytes_roundtrip as H. rewrite forallb_forall in H.
  specialize (H (Z.to_nat n)).
  assert (In (Z.to_nat n) (seq 0 256)) as Hin by (apply in_seq; lia).
  apply H in Hin. unfold byte_roundtrip in Hin.
  rewrite Z2Nat.id in Hin by lia.
  destruct (format_02x n) as [|c1 [|c2 [|]]]; try discriminate.
  exists c1, c2. split; [reflexivity|].
  destruct (hex_digits _ _) as [z|]; [|discriminate].
  apply Z.eqb_eq in Hin. congruence.
Qed.

Lemma rgb_hex_color (r g b : Z) :
  (0 <= r <= 255)%Z -> (0 <= g <= 255)%Z -> (0 <= b <= 255)%Z ->
  rgb (hex_color (r, g, b)) = Ok (r, g, b).
Proof.
  intros Hr Hg Hb.
  destruct (format_02x_byte r Hr) as (r1 & r2 & Er & Pr).
  destruct (format_02x_byte g Hg) as (g1 & g2 & Eg & Pg).
  destruct (format_02x_byte b Hb) as (b1 & b2 & Eb & Pb).
  unfold hex_color, rgb, int16. rewrite Er, Eg, Eb.
  match goal with |- context [substring 1 2 ?s] =>
    assert (substring 1 2 s = String r1 (String r2 EmptyString)) as -> by reflexivity;
    assert (substring 3 2 s = String g1 (String g2 EmptyString)) as -> by reflexivity;
    assert (substring 5 2 s = String b1 (String b2 EmptyString)) as -> by reflexivity
  end.
  rewrite Pr, Pg, Pb. reflexivity.
Qed.




(** ** What a successful round guarantees about lengths *)

Local Close Scope Q_scope.
Local Open Scope nat_scope.

Section Lengths.

Context (str_to_float : string -> option float64).

Lemma neutral_lift {A} (r : res A) : neutral (lift r).
Proof. intros l. repeat split. Qed.

Lemma neutral_bind {A B} (m : stm locals A) (f : A -> stm locals B) :
  neutral m -> (forall a, neutral (f a)) -> neutral (m ≫= f).
Proof.
  intros Hm Hf l. unfold mbind, stm_bind.
  destruct (Hm l) as (Hw & Hc & Hi).
  destruct (m l) as [[a|e] l1]; cbn in *.
  - destruct (Hf a l1) as (Hw' & Hc' & Hi'). repeat split; congruence.
  - repeat split; assumption.
Qed.

Lemma neutral_store set i item key dflt :
  (forall x l, widths (set i x l) = widths l /\
               l_countries (set i x l) = l_countries l /\
               l_iso3_data (set i x l) = l_iso3_data l) ->
  neutral (store str_to_float set i item key dflt).
Proof.
  intros Hset. unfold store.
  apply neutral_bind; [apply neutral_lift|]. intros v.
  apply neutral_bind; [apply neutral_lift|]. intros x l.
  apply Hset.
Qed.

(** Peel a neutral step off the front of a computation. *)
Lemma peel {A B} (m : stm locals A) (f : A -> stm locals B) (l : locals)
    (P : res B * locals -> Prop) :
  neutral m ->
  (forall rest l1,
      widths l1 = widths l -> l_countries l1 = l_countries l ->
      l_iso3_data l1 = l_iso3_data l ->
      (exists e, rest = (Raise e, l1)) \/ (exists a, rest = f a l1) -> P rest) ->
  P ((m ≫= f) l).
Proof.
  intros Hm HP. unfold mbind, stm_bind.
  destruct (Hm l) as (Hw & Hc & Hi).
  destruct (m l) as [[a|e] l1]; cbn in *; apply (HP _ l1); eauto.
Qed.

Lemma parse_record_shape i item l :
  record_post l (parse_record str_to_float i item l).
Proof.
  unfold parse_record.
  unfold mbind at 1, stm_bind at 1, lift at 1.
  destruct item as [| | | | |d];
    try (split; [reflexivity|]; intros Hc; discriminate Hc).
  cbn [py_get].
  unfold mbind at 1, stm_bind at 1, modify at 1.
  set (l1 := append_country _ l).
  assert (widths l1 = widths l /\ length (l_countries l1) = S (length (l_countries l))
          /\ l_iso3_data l1 = l_iso3_data l) as (Hw1 & Hc1 & Hi1).
  { unfold l1, append_country, widths. cbn. rewrite length_app. cbn.
    repeat split. lia. }
  clearbody l1.
  assert (forall e l2, widths l2 = widths l1 -> l_countries l2 = l_countries l1 ->
                       l_iso3_data l2 = l_iso3_data l1 ->
                       record_post l (Raise e, l2)) as Hraise.
  { intros e l2 Hw Hc Hi. split; cbn; [congruence|]. intros _. split; congruence. }
  apply peel; [apply neutral_store; setter|].
  intros rest l2 Hw2 Hc2 Hi2 [[e ->]|[_ ->]]; [apply Hraise; assumption|].
  apply peel; [apply neutral_store; setter|].
  intros rest l3 Hw3 Hc3 Hi3 [[e ->]|[_ ->]]; [apply Hraise; congruence|].
  apply peel; [apply neutral_store; setter|].
  intros rest l4 Hw4 Hc4 Hi4 [[e ->]|[_ ->]]; [apply Hraise; congruence|].
  apply peel; [apply neutral_store; setter|].
  intros rest l5 Hw5 Hc5 Hi5 [[e ->]|[_ ->]]; [apply Hraise; congruence|].
  apply peel; [apply neutral_store; setter|].
  intros rest l6 Hw6 Hc6 Hi6 [[e ->]|[_ ->]]; [apply Hraise; congruence|].
  apply peel; [apply neutral_store; setter|].
  intros rest l7 Hw7 Hc7 Hi7 [[e ->]|[_ ->]]; [apply Hraise; congruence|].
  unfold mbind, stm_bind, lift, modify.
  destruct (default (PDict ∅) (d !! "countryInfo")) as [| | | | |info]; cbn [py_get];
    try (split; cbn; [congruence|]; intros Hc; discriminate Hc).
  split; cbn; [unfold widths in *; cbn; congruence|].
  rewrite length_app. cbn. split; [congruence|]. rewrite Hi7, Hi6, Hi5, Hi4, Hi3, Hi2, Hi1. lia.
Qed.

Lemma parse_records_shape items : forall i l l',
  parse_records str_to_float i items l = (Ok tt, l') ->
  widths l' = widths l /\
  length (l_countries l') = length (l_countries l) + length items /\
  length (l_iso3_data l') <= length (l_iso3_data l) + length items.
Proof.
  induction items as [|item rest IH]; intros i l l' Hrun.
  - cbn in Hrun. injection Hrun as <-. cbn. repeat split; lia.
  - cbn [parse_records] in Hrun.
    unfold mbind, stm_bind, try_except_st in Hrun.
    pose proof (parse_record_shape i item l) as Hrec.
    destruct (parse_record str_to_float i item l) as [[u|e] l1].
    + destruct Hrec as (Hw & Hc & Hi). cbn [fst snd] in Hw, Hc, Hi.
      apply IH in Hrun as (Hw' & Hc' & Hi'). cbn [length].
      repeat split; [congruence | lia | lia].
    + destruct Hrec as (Hw & Hcaught). cbn [fst snd] in Hw, Hcaught.
      change (existsb (exn_eqb e) [KeyError; TypeError])
        with (caught_in_loop e) in Hrun.
      destruct (caught_in_loop e); [|discriminate Hrun].
      destruct (Hcaught eq_refl) as (Hc & Hi). cbn in Hrun.
      apply IH in Hrun as (Hw' & Hc' & Hi'). cbn [length].
      repeat split; [congruence | lia | lia].
Qed.

Lemma length_chars (s : string) : length (chars s) = String.length s.
Proof. induction s as [|c s IH]; cbn; [reflexivity | rewrite IH; reflexivity]. Qed.

(** [len(data)] is the number of items the loop visits. *)
Lemma py_len_iter data n items :
  py_len data = Ok n -> py_iter data = Ok items -> length items = n.
Proof.
  destruct data; cbn; intros Hn Hi; try discriminate;
    injection Hn as <-; injection Hi as <-.
  - apply length_chars.
  - reflexivity.
  - rewrite length_fmap. apply length_map_to_list.
Qed.

Lemma np_divide_where_length a : forall i b buf,
  length (np_divide_where i a b buf) = Nat.min (length a) (length b).
Proof.
  induction a as [|x a IH]; intros i [|y b] buf; cbn; try reflexivity.
  rewrite IH. reflexivity.
Qed.

Lemma per_million_length num population buf :
  length (per_million num population buf) = Nat.min (length num) (length population).
Proof.
  unfold per_million, np_scale. rewrite length_fmap. apply np_divide_where_length.
Qed.

Lemma bind_ok {A B} (m : res A) (f : A -> res B) (b : B) :
  m ≫= f = Ok b -> exists a, m = Ok a /\ f a = Ok b.
Proof. destruct m as [a|e]; cbn; [eauto | discriminate]. Qed.

(** An entry that a round builds has as many names as cells in each of its
    arrays, and at most as many ISO codes. *)
Lemma build_entry_lengths now heap data global_data global_yesterday e :
  build_entry str_to_float now heap data global_data global_yesterday = Ok e ->
  let n := length (countries e) in
  length (cases e) = n /\ length (active e) = n /\ length (recovered e) = n /\
  length (deaths e) = n /\ length (cases_per_million e) = n /\
  length (deaths_per_million e) = n /\ length (tests_per_million e) = n /\
  length (iso3 e) <= n.
Proof.
  unfold build_entry. intros H.
  apply bind_ok in H as (n0 & Hlen & H).
  apply bind_ok in H as (items & Hiter & H).
  apply bind_ok in H as (l & Hloop & H).
  repeat (apply bind_ok in H as (? & _ & H)).
  injection H as <-. cbn.
  pose proof (py_len_iter data n0 items Hlen Hiter) as Hitems.
  destruct (parse_records str_to_float 0 items (init_locals n0)) as [[[]|bad] l'] eqn:Hrun;
    cbn in Hloop; [|discriminate]. injection Hloop as ->.
  apply parse_records_shape in Hrun as (Hw & Hc & Hi).
  unfold widths, init_locals, np_zeros, np_ones in Hw. cbn in Hw, Hc, Hi.
  rewrite !length_replicate in Hw.
  injection Hw as Hcases Hactive Hrecovered Hdeaths Htests Hpopulation.
  rewrite !per_million_length. repeat split; lia.
Qed.


(** Masked cells keep what the buffer held. *)
Lemma np_divide_where_masked num : forall k population buf i x p,
  num !! i = Some x -> population !! i = Some (Fin p) -> Qzero p = true ->
  np_divide_where k num population buf !! i = Some (buf (k + i)).
Proof.
  induction num as [|x0 num IH]; intros k [|y population] buf [|i] x p Hx Hp Hz;
    cbn in *; try discriminate.
  - injection Hp as ->. cbn. rewrite Hz. cbn. rewrite Nat.add_0_r. reflexivity.
  - replace (k + S i) with (S k + i) by lia. eapply IH; eassumption.
Qed.

End Lengths.


(** For a population of 0 the rate is the prior content of the buffer,
    times 1000000. *)
Lemma per_million_masked num population buf i x p :
  num !! i = Some x -> population !! i = Some (Fin p) -> (p == 0)%Q ->
  per_million num population buf !! i = Some (f_mul (buf i) (Fin 1000000)).
Proof.
  intros Hx Hp Hz. unfold per_million, np_scale. rewrite list_lookup_fmap.
  rewrite (np_divide_where_masked num 0 population buf i x p Hx Hp)
    by (apply Qzero_true; exact Hz).
  reflexivity.
Qed.

(** * Further properties of the code *)

Local Close Scope nat_scope.
Local Open Scope Z_scope.
Local Open Scope list_scope.

(** ** The cache slot and the request log *)

Section CacheMore.

Context (str_to_float : string -> option float64).

(** A round sends the four requests in their order and stops at the first
    that raises or whose body does not decode. *)
Lemma refresh_requests now net heap log :
  exists k, (1 <= k <= 4)%nat /\
    (refresh str_to_float now net heap log).2 = log ++ take k round_urls.
Proof.
  unfold refresh, session_get, lift, mbind, stm_bind, round_urls.
  cbn -[build_entry url_countries url_countries_yesterday url_all url_all_yesterday].
  destruct (net url_countries) as [r1|]; [|exists 1%nat; split; [lia|reflexivity]].
  destruct (json r1); [|exists 1%nat; split; [lia|reflexivity]].
  destruct (net url_countries_yesterday) as [r2|];
    [|exists 2%nat; split; [lia|]; cbn; rewrite <- !app_assoc; reflexivity].
  destruct (json r2);
    [|exists 2%nat; split; [lia|]; cbn; rewrite <- !app_assoc; reflexivity].
  destruct (net url_all) as [r3|];
    [|exists 3%nat; split; [lia|]; cbn; rewrite <- !app_assoc; reflexivity].
  destruct (json r3);
    [|exists 3%nat; split; [lia|]; cbn; rewrite <- !app_assoc; reflexivity].
  exists 4%nat. split; [lia|].
  destruct (net url_all_yesterday) as [r4|];
    [destruct (json r4)|]; cbn; rewrite <- !app_assoc; reflexivity.
Qed.

Lemma hit_or_miss force now c : hit force now c \/ miss force now c.
Proof.
  unfold hit, miss. destruct force; [right; left; reflexivity|].
  destruct (data c) as [e|] eqn:Hd; [|right; right; intros ? ? H; discriminate H].
  destruct (last_fetch c) as [t|] eqn:Ht;
    [|right; right; intros ? ? _ H; discriminate H].
  destruct (Qlt_le_dec (now - t) 900) as [Hlt|Hge].
  - left. split; [reflexivity|]. exists e, t. auto.
  - right. right. intros e' t' _ Ht'. injection Ht' as <-. exact Hge.
Qed.

Lemma hit_not_miss force now c : hit force now c -> miss force now c -> False.
Proof.
  intros (-> & e & t & Hd & Ht & Hlt) [Hf | Hstale]; [discriminate|].
  apply (Qlt_not_le _ _ Hlt). eauto.
Qed.

(** X1.  Whatever the arguments, a call appends to the request log a
    prefix of the four URLs of a round, in their fixed order: nothing
    exactly when the call is an unforced one on a fresh entry, and between
    one and four requests otherwise. *)
Theorem requests_are_a_round_prefix (force : bool) (now : Q) (net : network)
    (heap : nat -> nat -> float64) (w : world) :
  exists k, (k <= 4)%nat /\
    requests (fetch_covid_data str_to_float force now net heap w).2
    = requests w ++ take k round_urls /\
    (k = 0%nat <-> hit force now (data_cache w)).
Proof.
  destruct (hit_or_miss force now (data_cache w)) as [Hhit | Hmiss].
  - exists 0%nat. split; [lia|]. split; [|tauto].
    destruct Hhit as (-> & e & t & Hd & Ht & Hlt).
    rewrite (fetch_hit str_to_float now t e net heap w Hd Ht Hlt).
    cbn. rewrite app_nil_r. reflexivity.
  - rewrite (fetch_miss str_to_float force now net heap w Hmiss).
    destruct (refresh_requests now net heap (requests w)) as (k & Hk & Hlog).
    exists k. split; [lia|]. split.
    + destruct (refresh str_to_float now net heap (requests w)) as [[e|x] log];
        exact Hlog.
    + split; [lia|]. intros Hhit. destruct (hit_not_miss _ _ _ Hhit Hmiss).
Qed.

(** X2.  A forced call begins exactly one refresh round whatever the slot
    holds, also when the cached entry is fresh. *)
Theorem forced_call_always_refreshes (now : Q) (net : network)
    (heap : nat -> nat -> float64) (w : world) :
  fetches (requests (fetch_covid_data str_to_float true now net heap w).2)
  = S (fetches (requests w)) /\
  forall e log,
    refresh str_to_float now net heap (requests w) = (Ok e, log) ->
    fetch_covid_data str_to_float true now net heap w
    = (Ok e, {| data_cache := {| data := Some e; last_fetch := Some now |};
                requests := log |}).
Proof.
  split.
  - apply fetch_miss_fetches. left. reflexivity.
  - intros e log Hok. unfold fetch_covid_data. rewrite Hok. reflexivity.
Qed.

(** X3.  The slot after a call is the slot before it, or the returned
    entry stamped with the time of the call: nothing else is ever written.
    What is returned is what the slot then holds, except for the empty
    entry, which is returned only while the slot stays empty and is never
    cached.  A slot that holds an entry and its stamp, or neither, stays
    so, and an entry once cached is never dropped. *)
Theorem slot_after_call (force : bool) (now : Q) (net : network)
    (heap : nat -> nat -> float64) (w : world) :
  exists e w',
    fetch_covid_data str_to_float force now net heap w = (Ok e, w') /\
    (data_cache w' = data_cache w \/
     data_cache w' = {| data := Some e; last_fetch := Some now |}) /\
    (data (data_cache w') = Some e \/
     (data (data_cache w') = None /\ data (data_cache w) = None /\
      e = empty_entry now)) /\
    (slot_consistent (data_cache w) -> slot_consistent (data_cache w')) /\
    (data (data_cache w) <> None -> data (data_cache w') <> None).
Proof.
  destruct (hit_or_miss force now (data_cache w)) as [Hhit | Hmiss].
  - destruct Hhit as (-> & e & t & Hd & Ht & Hlt).
    rewrite (fetch_hit str_to_float now t e net heap w Hd Ht Hlt).
    exists e, w. conjuncts; auto.
  - rewrite (fetch_miss str_to_float force now net heap w Hmiss).
    destruct (refresh str_to_float now net heap (requests w)) as [[e|x] log].
    + eexists _, _. split; [reflexivity|]. cbn.
      conjuncts; [right; reflexivity | left; reflexivity | intros _; exact I
                  | intros _; discriminate].
    + eexists _, _. split; [reflexivity|]. cbn. unfold fallback.
      destruct (data (data_cache w)) as [e|] eqn:Hd;
        conjuncts; auto.
Qed.

End CacheMore.

(** ** Batches of well-formed records *)

Section RowsParsed.

Context (str_to_float : string -> option float64).

Lemma store_run set i d key dflt x l :
  cell str_to_float d key dflt = Some x ->
  store str_to_float set i (PDict d) key dflt l = (Ok tt, set i x l).
Proof.
  unfold cell, store, mbind, stm_bind, lift, modify. cbn [py_get].
  destruct (np_setitem str_to_float _); intros [=]; subst; reflexivity.
Qed.

Lemma stm_bind_run {S A B} (m : stm S A) (f : A -> stm S B) s a s' :
  m s = (Ok a, s') -> (m ≫= f) s = f a s'.
Proof. intros H. unfold mbind, stm_bind. rewrite H. reflexivity. Qed.

(** A well-formed record runs through the loop body without raising and
    leaves its name, its six numbers and its ISO code. *)
Lemma parse_record_row i item r l :
  row_of str_to_float item = Some r ->
  parse_record str_to_float i item l =
  (Ok tt,
   append_iso3 (row_iso3 r)
     (set_population i (row_population r)
        (set_tests i (row_tests r)
           (set_deaths i (row_deaths r)
              (set_recovered i (row_recovered r)
                 (set_active i (row_active r)
                    (set_cases i (row_cases r)
                       (append_country (row_country r) l)))))))).
Proof.
  destruct item as [| | | | |d]; try discriminate.
  unfold row_of. unfold mbind at 1 2 3 4 5 6, option_bind.
  destruct (cell _ d "cases" 0) as [c|] eqn:Hc; [|discriminate].
  destruct (cell _ d "active" 0) as [a|] eqn:Ha; [|discriminate].
  destruct (cell _ d "recovered" 0) as [rc|] eqn:Hr; [|discriminate].
  destruct (cell _ d "deaths" 0) as [dt|] eqn:Hd; [|discriminate].
  destruct (cell _ d "tests" 0) as [t|] eqn:Ht; [|discriminate].
  destruct (cell _ d "population" 1) as [p|] eqn:Hp; [|discriminate].
  destruct (default (PDict ∅) (d !! "countryInfo")) as [| | | | |info] eqn:Hinfo;
    try discriminate.
  intros [= <-]. cbn [row_iso3 row_population row_tests row_deaths row_recovered
                       row_active row_cases row_country].
  unfold parse_record.
  erewrite stm_bind_run by reflexivity.
  erewrite stm_bind_run by reflexivity.
  erewrite stm_bind_run by (apply store_run; exact Hc).
  erewrite stm_bind_run by (apply store_run; exact Ha).
  erewrite stm_bind_run by (apply store_run; exact Hr).
  erewrite stm_bind_run by (apply store_run; exact Hd).
  erewrite stm_bind_run by (apply store_run; exact Ht).
  erewrite stm_bind_run by (apply store_run; exact Hp).
  erewrite stm_bind_run by (unfold lift; cbn [py_get]; rewrite Hinfo; reflexivity).
  erewrite stm_bind_run by reflexivity.
  reflexivity.
Qed.

(** Writing cell [length done] of an array whose first [length done]
    cells are filled extends the filled part by one. *)
Lemma insert_next {A} (f : row -> A) (done : list row) (r : row) (n : nat) (d : A) :
  (length done < n)%nat ->
  <[length done := f r]> ((f <$> done) ++ replicate (n - length done) d)
  = (f <$> (done ++ [r])) ++ replicate (n - length (done ++ [r])) d.
Proof.
  intros Hlt.
  rewrite insert_app_r_alt by (rewrite length_fmap; lia).
  rewrite length_fmap, Nat.sub_diag.
  rewrite length_app. cbn [length].
  replace (n - length done)%nat with (S (n - (length done + 1))) by lia.
  cbn. rewrite fmap_app. cbn. rewrite <- app_assoc. reflexivity.
Qed.

(** Two sets of locals with the same lists and arrays are the same. *)
Lemma locals_ext (l1 l2 : locals) :
  l_countries l1 = l_countries l2 -> l_iso3_data l1 = l_iso3_data l2 ->
  l_cases l1 = l_cases l2 -> l_active l1 = l_active l2 ->
  l_recovered l1 = l_recovered l2 -> l_deaths l1 = l_deaths l2 ->
  l_tests l1 = l_tests l2 -> l_population l1 = l_population l2 ->
  l1 = l2.
Proof. destruct l1, l2; cbn; intros; subst; reflexivity. Qed.

Lemma locals_after_step (n : nat) (done : list row) (r : row) :
  (length done < n)%nat ->
  append_iso3 (row_iso3 r)
    (set_population (length done) (row_population r)
       (set_tests (length done) (row_tests r)
          (set_deaths (length done) (row_deaths r)
             (set_recovered (length done) (row_recovered r)
                (set_active (length done) (row_active r)
                   (set_cases (length done) (row_cases r)
                      (append_country (row_country r) (locals_after n done))))))))
  = locals_after n (done ++ [r]).
Proof.
  intros Hlt.
  apply locals_ext; cbn -[Nat.sub replicate locals_after];
    unfold locals_after; cbn -[Nat.sub replicate];
    rewrite ?insert_next by exact Hlt; rewrite ?fmap_app; reflexivity.
Qed.

(** On well-formed records the loop is a map: after it the lists and the
    arrays hold, record by record, the values of [row_of]. *)
Lemma parse_records_rows (n : nat) (items : list pyval) : forall rows done,
  mapM (row_of str_to_float) items = Some rows ->
  (length done + length items <= n)%nat ->
  parse_records str_to_float (length done) items (locals_after n done)
  = (Ok tt, locals_after n (done ++ rows)).
Proof.
  induction items as [|item items IH]; intros rows done Hrows Hlen.
  - cbn in Hrows. injection Hrows as <-. rewrite app_nil_r. reflexivity.
  - cbn [mapM] in Hrows. unfold mbind at 1, option_bind in Hrows.
    destruct (row_of str_to_float item) as [r|] eqn:Hr; [|discriminate].
    unfold mbind at 1, option_bind in Hrows.
    destruct (mapM (row_of str_to_float) items) as [rs|] eqn:Hrs; [|discriminate].
    injection Hrows as <-. cbn [length] in Hlen.
    cbn [parse_records]. unfold mbind, stm_bind, try_except_st.
    rewrite (parse_record_row _ _ r _ Hr).
    rewrite locals_after_step by lia.
    replace (S (length done)) with (length (done ++ [r]))
      by (rewrite length_app; cbn; lia).
    rewrite (IH rs (done ++ [r]) eq_refl) by (rewrite length_app; cbn; lia).
    rewrite <- app_assoc. reflexivity.
Qed.

(** [build_entry] on two summary objects, from the locals the loop leaves. *)
Lemma build_entry_objects now heap data g y n items l u :
  py_len data = Ok n -> py_iter data = Ok items ->
  parse_records str_to_float 0 items (init_locals n) = (Ok tt, l) ->
  as_number (default (PNum (now * 1000)) (g !! "updated")) = Some u ->
  build_entry str_to_float now heap data (PDict g) (PDict y)
  = Ok (entry_of l heap g y u).
Proof.
  intros Hn Hi Hl Hu. unfold build_entry. rewrite Hn, Hi.
  unfold mbind, res_bind. rewrite Hl. cbn [py_get].
  rewrite !calculate_trend_eq. unfold py_truediv. rewrite Hu.
  reflexivity.
Qed.


Lemma well_formed_entry now heap items rows g y u :
  mapM (row_of str_to_float) items = Some rows ->
  as_number (default (PNum (now * 1000)) (g !! "updated")) = Some u ->
  build_entry str_to_float now heap (PList items) (PDict g) (PDict y)
  = Ok (entry_of (locals_after (length rows) rows) heap g y u).
Proof.
  intros Hrows Hu.
  pose proof (length_mapM _ _ _ Hrows) as Hlen.
  apply (build_entry_objects now heap (PList items) g y (length items) items);
    [reflexivity | reflexivity | | exact Hu].
  assert (init_locals (length items) = locals_after (length items) []) as ->.
  { unfold init_locals, locals_after, np_zeros, np_ones. cbn.
    rewrite Nat.sub_0_r. reflexivity. }
  pose proof (parse_records_rows (length items) items rows [] Hrows
                (Nat.le_refl _)) as Hp.
  cbn [length app] in Hp. rewrite Hp, Hlen. reflexivity.
Qed.








End RowsParsed.

(** ** The summary bodies *)

Section Summary.

Context (str_to_float : string -> option float64).




(** X8.  The round raises, whatever the batch, when the summary for today
    is not an object, when the summary for yesterday is not an object, and
    when [updated] is present and is neither a number nor a boolean (null
    included). *)
Theorem malformed_summary_fails_round (now : Q) (heap : nat -> nat -> float64)
    (data global_data global_yesterday : pyval) :
  ((forall g, global_data <> PDict g) \/
   (forall y, global_yesterday <> PDict y) \/
   (exists g v, global_data = PDict g /\ g !! "updated" = Some v /\
                as_number v = None)) ->
  exists x, build_entry str_to_float now heap data global_data global_yesterday
            = Raise x.
Proof.
  intros H. unfold build_entry.
  destruct (py_len data) as [n|x]; [|eauto]. cbn.
  destruct (py_iter data) as [items|x]; [|eauto]. cbn.
  destruct (parse_records str_to_float 0 items (init_locals n)) as [[[]|x] l];
    [|eauto]. cbn.
  destruct global_data as [| | | | |g];
    try (cbn; eauto).
  destruct global_yesterday as [| | | | |y];
    try (cbn; eauto).
  destruct H as [H | [H | (g' & v & Hg & Hv & Hnum)]];
    [destruct (H g eq_refl) | destruct (H y eq_refl) |].
  injection Hg as <-. cbn [py_get mbind res_bind].
  rewrite !calculate_trend_eq. cbn [mbind res_bind].
  rewrite Hv. cbn [default]. unfold py_truediv, id. rewrite Hnum. eauto.
Qed.

(** X9.  The per-country body for yesterday is requested and decoded but
    never read: two feeds that differ only in that body, each with one that
    decodes, give the same result and the same world. *)
Theorem yesterday_batch_is_unused (force : bool) (now : Q) (net1 net2 : network)
    (heap : nat -> nat -> float64) (w : world)
    (Hsame : forall u, u <> url_countries_yesterday -> net1 u = net2 u)
    (Hdecodes1 : exists r b, net1 url_countries_yesterday = Ok r /\ json r = Ok b)
    (Hdecodes2 : exists r b, net2 url_countries_yesterday = Ok r /\ json r = Ok b) :
  fetch_covid_data str_to_float force now net1 heap w
  = fetch_covid_data str_to_float force now net2 heap w.
Proof.
  assert (refresh str_to_float now net1 heap (requests w)
          = refresh str_to_float now net2 heap (requests w)) as Hround.
  { destruct Hdecodes1 as (r1 & b1 & Hr1 & Hb1).
    destruct Hdecodes2 as (r2 & b2 & Hr2 & Hb2).
    unfold refresh, session_get, lift, mbind, stm_bind.
    cbn -[build_entry url_countries url_countries_yesterday url_all url_all_yesterday].
    rewrite (Hsame url_countries) by discriminate.
    rewrite (Hsame url_all) by discriminate.
    rewrite (Hsame url_all_yesterday) by discriminate.
    rewrite Hr1, Hr2, Hb1, Hb2. reflexivity. }
  unfold fetch_covid_data. rewrite Hround. reflexivity.
Qed.


End Summary.

(** ** The colour scale outside [0, 1], and the colour strings *)

Local Open Scope Q_scope.







Lemma hex_color_length (r g b : Z) :
  (0 <= r <= 255)%Z -> (0 <= g <= 255)%Z -> (0 <= b <= 255)%Z ->
  String.length (hex_color (r, g, b)) = 7%nat.
Proof.
  intros Hr Hg Hb.
  destruct (format_02x_byte r Hr) as (r1 & r2 & Er & _).
  destruct (format_02x_byte g Hg) as (g1 & g2 & Eg & _).
  destruct (format_02x_byte b Hb) as (b1 & b2 & Eb & _).
  unfold hex_color. rewrite Er, Eg, Eb. reflexivity.
Qed.



(** X13.  Colours round-trip: writing three channels between 0 and 255
    as [#rrggbb] and reading the string back, as the code reads the
    palette, gives the channels again; and each colour of the palette,
    read and written back, is the same string. *)
Theorem color_strings_round_trip :
  (forall r g b,
      (0 <= r <= 255)%Z -> (0 <= g <= 255)%Z -> (0 <= b <= 255)%Z ->
      rgb (hex_color (r, g, b)) = Ok (r, g, b) /\
      String.length (hex_color (r, g, b)) = 7%nat) /\
  (forall c, c ∈ colors -> exists t, rgb c = Ok t /\ hex_color t = c).
Proof.
  split.
  - intros r g b Hr Hg Hb. split.
    + apply rgb_hex_color; assumption.
    + apply hex_color_length; assumption.
  - intros c Hc. unfold colors in Hc.
    repeat (apply elem_of_cons in Hc as [-> | Hc];
            [eexists; split; vm_compute; reflexivity|]).
    inversion Hc.
Qed.

(** ** The map figure *)





(** ** The cards and the callback *)

Lemma create_card_ok (title : string) (value : scalar) (subtitle : string)
    (trend : pyval) (color theme : string) (s : styles) (x : float64) :
  theme_styles theme = Ok s -> numeric_or_none trend ->
  format_thousands value = Ok x ->
  exists c,
    create_card title value subtitle trend color theme = Ok c /\
    card_title c = title /\ card_value c = x /\ card_color c = color /\
    card_background c = card_bg s /\
    (trend = PNone -> card_trend c = None) /\
    (forall q, as_number trend = Some q ->
       card_trend c
       = Some {| trend_icon := if Qlt_le_dec q 0 then "↓" else "↑";
                 trend_color := if Qlt_le_dec q 0 then "danger" else "success";
                 trend_magnitude := Qabs q |}).
Proof.
  intros Hs Htrend Hvalue. unfold create_card. rewrite Hs. cbn [mbind res_bind].
  destruct Htrend as [-> | [q Hq]].
  - cbn [py_is_none mbind res_bind]. rewrite Hvalue. cbn [mbind res_bind].
    eexists. split; [reflexivity|]. cbn.
    repeat (split; [reflexivity|]).
    intros q Hq. discriminate Hq.
  - assert (py_is_none trend = false) as ->
      by (destruct trend; try reflexivity; discriminate Hq).
    unfold py_ge0, py_abs. rewrite Hq. cbn [mbind res_bind].
    rewrite Hvalue. cbn [mbind res_bind].
    eexists. split; [reflexivity|]. cbn.
    repeat (split; [reflexivity|]). split.
    + intros ->. discriminate Hq.
    + intros q' [= <-]. destruct (Qlt_le_dec q 0); reflexivity.
Qed.

(** X15.  A card under a known theme: with no trend it shows none; with a
    numeric trend it shows the absolute value, as a rise in the success
    colour when the trend is 0 or more and as a fall in the danger colour
    when it is negative.  An unknown theme raises [KeyError] before
    anything else is looked at; a trend that is neither [None] nor a
    number raises [TypeError]; a value that is a string raises
    [ValueError]. *)
Theorem create_card_outcome (title : string) (value : scalar) (subtitle : string)
    (trend : pyval) (color theme : string) :
  (theme_styles theme = Raise KeyError ->
   create_card title value subtitle trend color theme = Raise KeyError) /\
  (forall s, theme_styles theme = Ok s ->
     (forall x, format_thousands value = Ok x ->
        (trend = PNone ->
         exists c, create_card title value subtitle trend color theme = Ok c /\
                   card_value c = x /\ card_trend c = None) /\
        (forall q, as_number trend = Some q ->
         exists c, create_card title value subtitle trend color theme = Ok c /\
                   card_value c = x /\
                   card_trend c
                   = Some {| trend_icon := if Qlt_le_dec q 0 then "↓" else "↑";
                             trend_color :=
                               if Qlt_le_dec q 0 then "danger" else "success";
                             trend_magnitude := Qabs q |})) /\
     (trend <> PNone -> as_number trend = None ->
      create_card title value subtitle trend color theme = Raise TypeError) /\
     (forall text, value = Py (PStr text) -> numeric_or_none trend ->
      create_card title value subtitle trend color theme = Raise ValueError)).
Proof.
  split.
  - intros H. unfold create_card. rewrite H. reflexivity.
  - intros s Hs. conjuncts.
    + intros x Hx. split.
      * intros Ht.
        destruct (create_card_ok title value subtitle trend color theme s x Hs
                    (or_introl Ht) Hx) as (c & Hc & _ & Hv & _ & _ & Hnone & _).
        exists c. auto.
      * intros q Hq.
        destruct (create_card_ok title value subtitle trend color theme s x Hs
                    (or_intror (ex_intro _ q Hq)) Hx)
          as (c & Hc & _ & Hv & _ & _ & _ & Hsome).
        exists c. auto.
    + intros Hnot Hnum. unfold create_card. rewrite Hs. cbn [mbind res_bind].
      assert (py_is_none trend = false) as ->
        by (destruct trend; try reflexivity; contradiction).
      unfold py_ge0. rewrite Hnum. reflexivity.
    + intros text -> Htrend. unfold create_card. rewrite Hs. cbn [mbind res_bind].
      destruct Htrend as [-> | [q Hq]].
      * reflexivity.
      * assert (py_is_none trend = false) as ->
          by (destruct trend; try reflexivity; discriminate Hq).
        unfold py_ge0, py_abs. rewrite Hq. reflexivity.
Qed.





(** ** The theme callbacks *)

Lemma toggle_theme_run (n_clicks : option Z) (current_theme : string)
    (css : list stylesheet) :
  let new_theme := if decide (current_theme = "DARKLY") then "FLATLY" else "DARKLY" in
  exists s sheet,
    theme_styles new_theme = Ok s /\
    theme_stylesheet new_theme = Ok sheet /\
    new_theme <> current_theme /\
    toggle_theme n_clicks current_theme css
    = (Ok (new_theme, icon s,
           {| button_background := card_bg s; button_color := text_color s |},
           {| content_background := bg_color s; content_color := text_color s |}),
       css ++ [sheet]).
Proof.
  cbv zeta. unfold toggle_theme.
  destruct (decide (current_theme = "DARKLY")) as [-> | Hne].
  - eexists _, Flatly.
    split; [vm_compute; reflexivity|]. split; [reflexivity|].
    split; [discriminate|]. reflexivity.
  - eexists _, Darkly.
    split; [vm_compute; reflexivity|]. split; [reflexivity|].
    split; [congruence|].
    unfold mbind, stm_bind, lift, modify, mret, stm_ret.
    destruct (theme_styles "DARKLY") as [s0|] eqn:Hs0; [|discriminate Hs0].
    vm_compute in Hs0. injection Hs0 as <-.
    destruct (decide (current_theme <> "DARKLY")) as [_ | Hcontra];
      [|contradiction].
    reflexivity.
Qed.

(** X18.  [toggle_theme] never raises, whatever the stored theme and the
    click count: from ["DARKLY"] it goes to ["FLATLY"], from anything else
    to ["DARKLY"]; the new theme always differs from the stored one, so
    the guard on the stylesheet is always taken and every call registers
    exactly one more stylesheet, that of the new theme; the click count
    has no part in the result. *)
Theorem toggle_theme_outcome (n_clicks : option Z) (current_theme : string)
    (css : list stylesheet) :
  exists new_theme icn button content sheet,
    toggle_theme n_clicks current_theme css
    = (Ok (new_theme, icn, button, content), css ++ [sheet]) /\
    new_theme <> current_theme /\
    (current_theme = "DARKLY" ->
     new_theme = "FLATLY" /\ sheet = Flatly /\ icn = "fas fa-moon") /\
    (current_theme <> "DARKLY" ->
     new_theme = "DARKLY" /\ sheet = Darkly /\ icn = "fas fa-sun") /\
    (forall clicks, toggle_theme clicks current_theme css
                    = toggle_theme n_clicks current_theme css).
Proof.
  destruct (toggle_theme_run n_clicks current_theme css)
    as (s & sheet & Hs & Hsheet & Hne & Hrun). cbv zeta in *.
  eexists _, _, _, _, sheet. split; [exact Hrun|]. split; [exact Hne|].
  conjuncts.
  - intros ->. destruct (decide ("DARKLY" = "DARKLY")) as [_|Hcontra]; [|contradiction].
    vm_compute in Hs, Hsheet. injection Hs as <-. injection Hsheet as <-.
    repeat split.
  - intros Hnot. destruct (decide (current_theme = "DARKLY")) as [Hcontra|_];
      [contradiction|].
    vm_compute in Hs, Hsheet. injection Hs as <-. injection Hsheet as <-.
    repeat split.
  - intros clicks. reflexivity.
Qed.

(** X19.  Toggling twice: from either of the two themes the second toggle
    returns to the theme the first one left, and two stylesheets have been
    registered; from any other stored value the callback settles on the
    pair and never returns to that value. *)
Theorem toggle_theme_twice (n1 n2 : option Z) (current_theme : string)
    (css : list stylesheet) :
  exists t1 i1 b1 c1 css1 t2 i2 b2 c2 css2,
    toggle_theme n1 current_theme css = (Ok (t1, i1, b1, c1), css1) /\
    toggle_theme n2 t1 css1 = (Ok (t2, i2, b2, c2), css2) /\
    length css2 = S (S (length css)) /\
    (current_theme = "DARKLY" \/ current_theme = "FLATLY" -> t2 = current_theme) /\
    (current_theme <> "DARKLY" -> current_theme <> "FLATLY" ->
     t1 = "DARKLY" /\ t2 = "FLATLY").
Proof.
  destruct (toggle_theme_run n1 current_theme css)
    as (s1 & sheet1 & _ & _ & _ & Hrun1). cbv zeta in Hrun1.
  set (t1 := if decide (current_theme = "DARKLY") then "FLATLY" else "DARKLY") in *.
  destruct (toggle_theme_run n2 t1 (css ++ [sheet1]))
    as (s2 & sheet2 & _ & _ & _ & Hrun2). cbv zeta in Hrun2.
  eexists _, _, _, _, _, _, _, _, _, _.
  split; [exact Hrun1|]. split; [exact Hrun2|].
  split; [rewrite !length_app; cbn; lia|].
  unfold t1. split.
  - intros [-> | ->]; reflexivity.
  - intros H1 H2.
    destruct (decide (current_theme = "DARKLY")) as [Hcontra|_]; [contradiction|].
    split; reflexivity.
Qed.

(** X20.  The theme a toggle returns is always one the other callbacks
    accept: [update_card_styles] returns seven equal styles for it, with
    the background and text colour the toggle gave the button.  For a
    theme that is not one of the two, [update_card_styles] raises
    [KeyError]. *)
Theorem card_styles_follow_toggle (n_clicks : option Z) (current_theme : string)
    (css : list stylesheet) :
  (exists new_theme icn button content css' style,
     toggle_theme n_clicks current_theme css
     = (Ok (new_theme, icn, button, content), css') /\
     update_card_styles new_theme = Ok (replicate 7 style) /\
     style_background style = button_background button /\
     style_color style = button_color button /\
     style_color style = content_color content) /\
  (forall theme, theme <> "DARKLY" -> theme <> "FLATLY" ->
     update_card_styles theme = Raise KeyError).
Proof.
  split.
  - destruct (toggle_theme_run n_clicks current_theme css)
      as (s & sheet & Hs & _ & _ & Hrun). cbv zeta in *.
    eexists _, _, _, _, _, _. split; [exact Hrun|].
    unfold update_card_styles. rewrite Hs. cbn [mbind res_bind].
    split; [reflexivity|]. repeat split.
  - intros theme H1 H2. unfold update_card_styles, theme_styles, THEME_STYLES.
    rewrite lookup_insert_ne by congruence.
    rewrite lookup_insert_ne by congruence.
    rewrite lookup_empty. reflexivity.
Qed.

(** ** The ten largest *)

Local Close Scope Q_scope.
Local Open Scope nat_scope.

Lemma length_top_10 (order : list nat) :
  length (top_10 order) = Nat.min 10 (length order).
Proof. unfold top_10. rewrite length_rev, length_drop. lia. Qed.

(** Position [a] of the selection is position [length order - 1 - a] of
    the order. *)
Lemma top_10_lookup (order : list nat) (a i : nat) :
  top_10 order !! a = Some i <->
  order !! (length order - S a) = Some i /\ a < Nat.min 10 (length order).
Proof.
  unfold top_10. rewrite rev_alt. fold (reverse (drop (length order - 10) order)).
  rewrite reverse_lookup_Some, lookup_drop, length_drop.
  split; intros [H Hlt]; (split; [|lia]);
    [replace (length order - S a)
       with (length order - 10 + (length order - (length order - 10) - S a)) by lia
    |replace (length order - 10 + (length order - (length order - 10) - S a))
       with (length order - S a) by lia]; exact H.
Qed.

Lemma for_list_index {A} (l : list A) (indices : list nat) :
  (forall i, i ∈ indices -> i < length l) ->
  exists picked,
    for_list (py_index l) indices = Ok picked /\
    length picked = length indices /\
    forall a i, indices !! a = Some i -> picked !! a = l !! i.
Proof.
  induction indices as [|i indices IH]; intros Hall.
  - exists []. repeat split. intros a i H. discriminate H.
  - destruct IH as (picked & Hpicked & Hlen & Hat).
    { intros j Hj. apply Hall. apply list_elem_of_further. exact Hj. }
    assert (i < length l) as Hi by (apply Hall; apply list_elem_of_here).
    apply lookup_lt_is_Some_2 in Hi as [x Hx].
    assert (py_index l i = Ok x) as Hpi by (unfold py_index; rewrite Hx; reflexivity).
    exists (x :: picked). cbn [for_list]. rewrite Hpi.
    cbn [mbind res_bind]. rewrite Hpicked. cbn [mbind res_bind].
    split; [reflexivity|]. split; [cbn; lia|].
    intros [|a] j Hj; cbn in Hj |- *.
    + injection Hj as <-. symmetry. exact Hx.
    + apply Hat. exact Hj.
Qed.

Lemma for_list_index_out {A} (l : list A) (indices : list nat) (i : nat) :
  i ∈ indices -> length l <= i -> for_list (py_index l) indices = Raise IndexError.
Proof.
  intros Hin Hout. induction indices as [|j indices IH]; [inversion Hin|].
  cbn [for_list].
  destruct (py_index l j) as [x|ex] eqn:Hj; cbn [mbind res_bind].
  - apply elem_of_cons in Hin as [-> | Hin].
    + unfold py_index in Hj. rewrite (lookup_ge_None_2 l j) in Hj by lia.
      discriminate Hj.
    + rewrite (IH Hin). reflexivity.
  - unfold py_index in Hj. destruct (l !! j); congruence.
Qed.

Lemma argsort_indices (arr : list float64) (order : list nat) :
  argsort_of arr order ->
  length order = length arr /\
  (forall i, i ∈ order <-> i < length arr) /\
  (forall i, i ∈ top_10 order -> i < length arr).
Proof.
  intros [Hperm _].
  assert (length order = length arr) as Hlen
    by (rewrite Hperm, length_seq; reflexivity).
  assert (forall i, i ∈ order <-> i < length arr) as Hin
    by (intros i; rewrite Hperm, elem_of_seq; lia).
  repeat split; try apply Hin; try assumption.
  intros i Hi. apply list_elem_of_lookup in Hi as [a Ha].
  apply top_10_lookup in Ha as [Ha _].
  apply Hin. eapply list_elem_of_lookup_2. exact Ha.
Qed.

(** X21.  The bar chart takes the last ten indices of the sorted order,
    reversed.  Given an order as [np.argsort] returns it on numbers, the
    selection has ten indices (all of them when there are fewer), each a
    valid index; it runs from the largest count downwards; and no country
    left out has more cases than one that is shown. *)
Theorem top_10_selects_largest (arr : list float64) (order : list nat)
    (Hsorted : argsort_of arr order) :
  length (top_10 order) = Nat.min 10 (length arr) /\
  (forall i, i ∈ top_10 order -> i < length arr) /\
  (forall a b i j x y,
      a <= b -> top_10 order !! a = Some i -> top_10 order !! b = Some j ->
      arr !! i = Some (Fin x) -> arr !! j = Some (Fin y) -> (y <= x)%Q) /\
  (forall i j x y,
      i ∈ top_10 order -> j < length arr -> j ∉ top_10 order ->
      arr !! i = Some (Fin x) -> arr !! j = Some (Fin y) -> (y <= x)%Q).
Proof.
  destruct (argsort_indices arr order Hsorted) as (Hlen & Hin & Htop).
  destruct Hsorted as [_ Hle].
  split; [rewrite length_top_10, Hlen; reflexivity|].
  split; [exact Htop|]. split.
  - intros a b i j x y Hab Ha Hb Hx Hy.
    apply top_10_lookup in Ha as [Ha Halt]. apply top_10_lookup in Hb as [Hb Hblt].
    apply (Hle (length order - S b) (length order - S a) j i y x); try assumption.
    lia.
  - intros i j x y Hi Hj Hnot Hx Hy.
    apply list_elem_of_lookup in Hi as [a Ha].
    apply top_10_lookup in Ha as [Ha Halt].
    assert (j ∈ order) as Hjin by (apply Hin; exact Hj).
    apply list_elem_of_lookup in Hjin as [pj Hpj].
    pose proof (lookup_lt_Some _ _ _ Hpj) as Hpjlt.
    destruct (decide (length order - Nat.min 10 (length order) <= pj)) as [Hsel | Hout].
    + exfalso. apply Hnot.
      apply (list_elem_of_lookup_2 _ (length order - S pj)).
      apply top_10_lookup. split; [|lia].
      replace (length order - S (length order - S pj)) with pj by lia. exact Hpj.
    + apply (Hle pj (length order - S a) j i y x); try assumption. lia.
Qed.

(** X22.  For an entry built by a round, the three columns of the bar
    chart never go out of range: whatever order [np.argsort] returns over
    the cases, the country, the cases and the rate of each selected index
    are found, and the columns have the length of the selection.  For an
    entry whose list of names is shorter than a selected index, the first
    column raises [IndexError]. *)
Theorem bar_data_of_round (str_to_float : string -> option float64)
    (now : Q) (heap : nat -> nat -> float64)
    (data global_data global_yesterday : pyval) (e : entry) (order : list nat)
    (Hbuilt : build_entry str_to_float now heap data global_data global_yesterday
              = Ok e)
    (Hsorted : argsort_of (cases e) order) :
  (exists bars,
     make_bar_data e order = Ok bars /\
     length (bar_country bars) = Nat.min 10 (length (cases e)) /\
     length (bar_cases bars) = Nat.min 10 (length (cases e)) /\
     length (bar_cases_per_million bars) = Nat.min 10 (length (cases e)) /\
     forall a i, top_10 order !! a = Some i ->
       bar_country bars !! a = countries e !! i /\
       bar_cases bars !! a = cases e !! i /\
       bar_cases_per_million bars !! a = cases_per_million e !! i) /\
  (forall e' i, i ∈ top_10 order -> length (countries e') <= i ->
     make_bar_data e' order = Raise IndexError).
Proof.
  split.
  - pose proof (build_entry_lengths str_to_float _ _ _ _ _ _ Hbuilt) as L.
    cbv zeta in L. destruct L as (Lc & _ & _ & _ & Lr & _).
    destruct (argsort_indices _ _ Hsorted) as (_ & _ & Htop).
    pose proof (length_top_10 order) as Hten.
    destruct (argsort_indices _ _ Hsorted) as (Hlen & _ & _).
    destruct (for_list_index (countries e) (top_10 order)) as (c1 & H1 & N1 & A1).
    { intros i Hi. rewrite <- Lc. apply Htop. exact Hi. }
    destruct (for_list_index (cases e) (top_10 order)) as (c2 & H2 & N2 & A2).
    { intros i Hi. apply Htop. exact Hi. }
    destruct (for_list_index (cases_per_million e) (top_10 order))
      as (c3 & H3 & N3 & A3).
    { intros i Hi. rewrite Lr, <- Lc. apply Htop. exact Hi. }
    unfold make_bar_data. cbv zeta. rewrite H1. cbn [mbind res_bind].
    rewrite H2. cbn [mbind res_bind]. rewrite H3. cbn [mbind res_bind].
    eexists. split; [reflexivity|]. cbn.
    rewrite N1, N2, N3, Hten, Hlen. repeat split; auto.
  - intros e' i Hi Hshort. unfold make_bar_data. cbv zeta.
    rewrite (for_list_index_out (countries e') (top_10 order) i Hi Hshort).
    reflexivity.
Qed.

(** ** Instances *)

Local Open Scope Q_scope.

Lemma sample_rows_parsed : mapM (row_of float_of_digits) sample_batch = Some sample_rows.
Proof. vm_compute. reflexivity. Qed.

Lemma sample_entry_built :
  build_entry float_of_digits 1000 zero_heap (PList sample_batch)
    (PDict sample_today) (PDict sample_yesterday) = Ok sample_entry.
Proof.
  apply (well_formed_entry float_of_digits 1000 zero_heap sample_batch sample_rows
           sample_today sample_yesterday (1000 * 1000) sample_rows_parsed).
  reflexivity.
Qed.

Lemma forced_call_always_refreshes_witness :
  fetches (requests (fetch_covid_data float_of_digits true 600 unreachable zero_heap
                       (cached prior_entry 0)).2)
  = S (fetches (requests (cached prior_entry 0))).
Proof.
  exact (proj1 (forced_call_always_refreshes float_of_digits 600 unreachable zero_heap
                  (cached prior_entry 0))).
Defined.





Lemma malformed_summary_fails_round_witness :
  exists x,
    build_entry float_of_digits 1000 zero_heap (PList sample_batch) PNone
      (PDict sample_yesterday) = Raise x.
Proof.
  apply (malformed_summary_fails_round float_of_digits 1000 zero_heap
           (PList sample_batch) PNone (PDict sample_yesterday)).
  left. intros g. discriminate.
Defined.

Lemma yesterday_batch_is_unused_witness :
  fetch_covid_data float_of_digits true 1000
    (feed 200 200 (PList sample_batch) (PList []) no_summary no_summary)
    zero_heap no_cache
  = fetch_covid_data float_of_digits true 1000
      (feed 200 200 (PList sample_batch) (PStr "ignored") no_summary no_summary)
      zero_heap no_cache.
Proof.
  apply (yesterday_batch_is_unused float_of_digits true 1000
           (feed 200 200 (PList sample_batch) (PList []) no_summary no_summary)
           (feed 200 200 (PList sample_batch) (PStr "ignored") no_summary no_summary)
           zero_heap no_cache).
  - intros u Hu. unfold feed.
    destruct (decide (u = url_countries)); [reflexivity|].
    destruct (decide (u = url_countries_yesterday)); [contradiction|].
    reflexivity.
  - eexists _, _. split; vm_compute; reflexivity.
  - eexists _, _. split; vm_compute; reflexivity.
Defined.




Lemma create_card_outcome_witness :
  exists c,
    create_card "Deaths" (Np (Fin 7)) "Total fatalities" (PNum (-3)) "danger" "FLATLY"
    = Ok c /\
    card_value c = Fin 7 /\
    card_trend c
    = Some {| trend_icon := if Qlt_le_dec (-3) 0 then "↓" else "↑";
              trend_color := if Qlt_le_dec (-3) 0 then "danger" else "success";
              trend_magnitude := Qabs (-3) |}.
Proof.
  destruct (theme_styles "FLATLY") as [s|] eqn:Hs; [|discriminate Hs].
  destruct (proj2 (create_card_outcome "Deaths" (Np (Fin 7)) "Total fatalities"
                     (PNum (-3)) "danger" "FLATLY") s Hs) as (Hok & _).
  exact (proj2 (Hok (Fin 7) eq_refl) (-3) eq_refl).
Defined.



Lemma top_10_selects_largest_witness :
  length (top_10 [1%nat; 2%nat; 0%nat])
  = Nat.min 10 (length [Fin 3; Fin 1; Fin 2]).
Proof.
  assert (argsort_of [Fin 3; Fin 1; Fin 2] [1%nat; 2%nat; 0%nat]) as Hsorted.
  { split.
    - exact (Permutation_sym (Permutation_cons_append [1%nat; 2%nat] 0%nat)).
    - intros a b i j x y Hab Ha Hb Hx Hy.
      destruct a as [|[|[|a]]]; try discriminate Ha;
        destruct b as [|[|[|b]]]; try discriminate Hb; try lia;
        injection Ha as <-; injection Hb as <-;
        injection Hx as <-; injection Hy as <-; discriminate. }
  exact (proj1 (top_10_selects_largest [Fin 3; Fin 1; Fin 2]
                  [1%nat; 2%nat; 0%nat] Hsorted)).
Defined.

Lemma bar_data_of_round_witness :
  exists bars,
    make_bar_data sample_entry [2%nat; 1%nat; 0%nat] = Ok bars /\
    length (bar_country bars) = Nat.min 10 (length (cases sample_entry)).
Proof.
  assert (argsort_of (cases sample_entry) [2%nat; 1%nat; 0%nat]) as Hsorted.
  { split.
    - exact (Permutation_sym (Permutation_rev [0%nat; 1%nat; 2%nat])).
    - intros a b i j x y Hab Ha Hb Hx Hy.
      destruct a as [|[|[|a]]]; try discriminate Ha;
        destruct b as [|[|[|b]]]; try discriminate Hb; try lia;
        injection Ha as <-; injection Hb as <-;
        vm_compute in Hx, Hy;
        injection Hx as <-; injection Hy as <-; discriminate. }
  destruct (proj1 (bar_data_of_round float_of_digits 1000 zero_heap
                     (PList sample_batch) (PDict sample_today)
                     (PDict sample_yesterday) sample_entry
                     [2%nat; 1%nat; 0%nat] sample_entry_built Hsorted))
    as (bars & Hbars & Hlen & _).
  exists bars. split; [exact Hbars | exact Hlen].
Defined.
